(** * Keyboard Challenge API: the leaderboard handlers of [server.js]

    A shallow embedding of the three leaderboard routes of the Express
    server ([POST /api/score], [GET /api/leaderboard],
    [DELETE /api/leaderboard]) and of the JavaScript built-ins they call,
    followed by the properties of the in-memory leaderboard.

    The routes are those of the server module of [server.js], which
    starts at [const express = require('express')]; the MongoDB snippet
    in front of it in the same file is a fragment of its own, whose
    [POST] route is embedded as [Snippet].  The two other server files
    are embedded next to it where a property speaks of them: the
    memory-only variant ([MemoryOnly]) and the mongoose-only variant
    ([MongooseOnly]).

    Conventions of the embedding.
    - A JavaScript string is a sequence of UTF-16 code units
      ([jsstring]), the unit [length] and [substring] count in.  The
      texts the server itself writes (messages, storage tags, dates) are
      kept as opaque constants of type [string].
    - A JavaScript number is [NaN], an infinity or a finite value; finite
      values are carried as the rational they denote.  [parseFloat]
      rounds the decimal it reads to binary64.  The handlers only store
      numbers, test them against zero and subtract them inside the sort
      comparator, whose result is read for its sign alone; on binary64
      the sign of [a - b] is that of the exact difference.
    - The request body is the value [express.json()] left in [req.body].
    - A handler is a computation in a state and exception monad.  The
      memory branches contain no [await]: they run without interleaving.
    - The texts of the engine's [TypeError]s are those of V8.
    - [mongoose] is outside the repository: the [Score] model is an
      interface ([ScoreModel]) whose operations may fail. *)

From Stdlib Require Import ZArith QArith List String Ascii Bool Lia Lqa.
From Stdlib Require Import Permutation Sorted.
Import ListNotations.

Set Implicit Arguments.

(** ** JavaScript values *)

Module JS.

Inductive number : Type :=
| NaN
| Infinity (negative : bool)
| Finite (q : Q).

Definition num (z : Z) : number := Finite (inject_Z z).

(** [x - y] on numbers. *)
Definition subtract (x y : number) : number :=
  match x, y with
  | NaN, _ | _, NaN => NaN
  | Infinity a, Infinity b => if Bool.eqb a b then NaN else Infinity a
  | Infinity a, Finite _ => Infinity a
  | Finite _, Infinity b => Infinity (negb b)
  | Finite p, Finite q => Finite (p - q)
  end.

(** [x < y] on numbers; false as soon as one side is [NaN]. *)
Definition lessThan (x y : number) : bool :=
  match x, y with
  | NaN, _ | _, NaN => false
  | Infinity a, Infinity b => a && negb b
  | Infinity a, Finite _ => a
  | Finite _, Infinity b => negb b
  | Finite p, Finite q =>
      match Qcompare p q with Lt => true | _ => false end
  end.

(** [x <= y] on numbers; false as soon as one side is [NaN]. *)
Definition lessEq (x y : number) : bool :=
  match x, y with
  | NaN, _ | _, NaN => false
  | Infinity a, Infinity b => a || negb b
  | Infinity a, Finite _ => a
  | Finite _, Infinity b => negb b
  | Finite p, Finite q =>
      match Qcompare p q with Gt => false | _ => true end
  end.

Definition isNaN (x : number) : bool :=
  match x with NaN => true | _ => false end.

(** A UTF-16 code unit (0 to 65535) and a JavaScript string. *)
Definition code_unit : Type := N.

Definition jsstring : Type := list code_unit.

(** The string an ASCII literal of the source denotes: every character
    below 128 is its own code unit. *)
Definition units (s : string) : jsstring :=
  map N_of_ascii (list_ascii_of_string s).

Coercion units : string >-> jsstring.

Fixpoint jsstring_eqb (s t : jsstring) : bool :=
  match s, t with
  | [], [] => true
  | c :: s', d :: t' => (c =? d)%N && jsstring_eqb s' t'
  | _, _ => false
  end.

(** A parsed JSON value, or [undefined] for a property that is absent. *)
#[local] Unset Elimination Schemes.
Inductive value : Type :=
| Undefined
| Null
| Bool (b : bool)
| Num (n : number)
| Str (s : jsstring)
| Arr (elements : list value)
| Obj (properties : list (jsstring * value)).
#[local] Set Elimination Schemes.

(** Thrown values are [Error] objects: the engine's [TypeError]s and the
    errors the database driver rejects with. *)
Record Error : Type := { error_name : string; message : string }.

Definition TypeError (msg : string) : Error :=
  {| error_name := "TypeError"; message := msg |}.

Inductive Completion (A : Type) : Type :=
| Normal (a : A)
| Throw (e : Error).
Arguments Normal {A} a.
Arguments Throw {A} e.

(** [ToBoolean]: what [!v] and [v || d] test. *)
Definition ToBoolean (v : value) : bool :=
  match v with
  | Undefined | Null => false
  | Bool b => b
  | Num NaN => false
  | Num (Infinity _) => true
  | Num (Finite q) => negb (Qnum q =? 0)%Z
  | Str s => match s with [] => false | _ :: _ => true end
  | Arr _ | Obj _ => true
  end.

(** [v || d]. *)
Definition or_else (v d : value) : value :=
  if ToBoolean v then v else d.

Fixpoint own_property (P : jsstring) (props : list (jsstring * value))
  : option value :=
  match props with
  | [] => None
  | (k, v) :: rest => if jsstring_eqb k P then Some v else own_property P rest
  end.

(** [O.P] for the keys the handlers read ([name], [time], [accuracy]),
    none of which is defined on a built-in prototype: the own property of
    an object, [undefined] on anything else, a [TypeError] on [undefined]
    and [null] (as destructuring [const { P } = O] raises). *)
Definition Get (O : value) (P : string) : Completion value :=
  match O with
  | Undefined =>
      Throw (TypeError ("Cannot destructure property '" ++ P
                        ++ "' of 'req.body' as it is undefined."))
  | Null =>
      Throw (TypeError ("Cannot destructure property '" ++ P
                        ++ "' of 'req.body' as it is null."))
  | Obj props =>
      Normal (match own_property (units P) props with
              | Some v => v
              | None => Undefined
              end)
  | _ => Normal Undefined
  end.

(** *** [String.prototype.substring] *)

Definition clamp (lo hi x : Z) : Z := Z.min (Z.max x lo) hi.

Definition String_substring (S : jsstring) (start end_ : Z) : jsstring :=
  let len := Z.of_nat (List.length S) in
  let finalStart := clamp 0 len start in
  let finalEnd := clamp 0 len end_ in
  let from := Z.min finalStart finalEnd in
  let to := Z.max finalStart finalEnd in
  firstn (Z.to_nat (to - from)) (skipn (Z.to_nat from) S).

(** [v.substring(start, end)] as a method call: only a string has the
    method; on any other JSON value the property is [undefined] or not
    callable and the call raises a [TypeError]. *)
Definition call_substring (v : value) (start end_ : Z) : Completion jsstring :=
  match v with
  | Str s => Normal (String_substring s start end_)
  | _ => Throw (TypeError "name.substring is not a function")
  end.

(** *** [Array.prototype.slice], [findIndex] *)

Definition relative_index (len i : Z) : Z :=
  if (i <? 0)%Z then Z.max (len + i) 0 else Z.min i len.

Definition Array_slice (A : Type) (l : list A) (start end_ : Z) : list A :=
  let len := Z.of_nat (List.length l) in
  let k := relative_index len start in
  let final := relative_index len end_ in
  firstn (Z.to_nat (Z.max (final - k) 0)) (skipn (Z.to_nat k) l).

Fixpoint findIndex_from (A : Type) (p : A -> bool) (l : list A) (k : Z) : Z :=
  match l with
  | [] => (-1)%Z
  | x :: rest => if p x then k else findIndex_from p rest (k + 1)%Z
  end.

Definition Array_findIndex (A : Type) (p : A -> bool) (l : list A) : Z :=
  findIndex_from p l 0%Z.

(** *** [Array.prototype.sort]

    The comparator's result [v] is read as the standard's [SortCompare]
    does: [NaN] counts as [+0], and only the sign matters.  The sort is
    stable (ECMAScript 2019); it is written as the insertion sort that
    puts each element into the sorted remainder of the array, behind the
    elements that compare strictly below it and in front of the others.
    With a comparator that orders the elements consistently every stable
    sort returns this list.  With one that does not (here: [by_time] on a
    list that holds a [NaN] time) the standard leaves the order to the
    implementation, and an engine may return another permutation of the
    array than this one; the properties below that speak of the order of
    the result are stated for lists whose times are numbers, and the
    others hold of every permutation. *)

Definition negative (v : number) : bool := lessThan v (num 0).

Section Sort.
Variable A : Type.
Variable comparefn : A -> A -> number.

Fixpoint insert (x : A) (sorted : list A) : list A :=
  match sorted with
  | [] => [x]
  | y :: rest =>
      if negative (comparefn y x) then y :: insert x rest
      else x :: y :: rest
  end.

Fixpoint Array_sort (l : list A) : list A :=
  match l with
  | [] => []
  | x :: rest => insert x (Array_sort rest)
  end.
End Sort.

(** *** [parseFloat]

    [parseFloat(v)] converts [v] to a string, drops leading white space
    and reads the longest prefix that is a [StrDecimalLiteral]; without
    such a prefix the result is [NaN]. *)

Definition digit_value (c : code_unit) : option Z :=
  let n := Z.of_N c in
  if ((48 <=? n) && (n <=? 57))%Z then Some (n - 48)%Z else None.

(** Reads decimal digits onto the accumulator [acc]; returns the value,
    the number of digits read and the rest of the string. *)
Fixpoint DecimalDigits (s : jsstring) (acc count : Z) : Z * Z * jsstring :=
  match s with
  | c :: rest =>
      match digit_value c with
      | Some d => DecimalDigits rest (10 * acc + d)%Z (count + 1)%Z
      | None => (acc, count, s)
      end
  | [] => (acc, count, s)
  end.

Definition unsigned_integer (s : jsstring) : option Z :=
  let '(v, n, _) := DecimalDigits s 0%Z 0%Z in
  if (n =? 0)%Z then None else Some v.

(** The code units of [e], [E], [+], [-] and [.]. *)
Definition is_exponent_indicator (c : code_unit) : bool :=
  ((c =? 101) || (c =? 69))%N.
Definition is_plus (c : code_unit) : bool := (c =? 43)%N.
Definition is_minus (c : code_unit) : bool := (c =? 45)%N.
Definition is_dot (c : code_unit) : bool := (c =? 46)%N.

(** The value of the [ExponentPart] in front of [s]; 0 when [s] does not
    start with a well-formed one (the prefix then ends before it). *)
Definition ExponentPart (s : jsstring) : Z :=
  match s with
  | c :: rest =>
      if is_exponent_indicator c then
        match rest with
        | sign :: r =>
            if is_plus sign then
              match unsigned_integer r with Some v => v | None => 0%Z end
            else if is_minus sign then
              match unsigned_integer r with Some v => (- v)%Z | None => 0%Z end
            else
              match unsigned_integer rest with Some v => v | None => 0%Z end
        | [] => 0%Z
        end
      else 0%Z
  | [] => 0%Z
  end.

(** [m * 10 ^ e], the mathematical value of a decimal literal. *)
Definition scale10 (m e : Z) : Q :=
  if (0 <=? e)%Z then inject_Z (m * 10 ^ e)
  else Qmake m (Z.to_pos (10 ^ (- e))).

(** *** Rounding to binary64

    The Number value of a real: the nearest value [m * 2 ^ k] with
    [m < 2 ^ 53] and [k >= -1074], ties to the even [m]; a real that
    rounds to [2 ^ 1024] or beyond gives an infinity. *)

(** [n / d] rounded to the nearest integer, ties to even ([d > 0]). *)
Definition round_half_even (n d : Z) : Z :=
  let q := (n / d)%Z in
  match (2 * (n mod d) ?= d)%Z with
  | Lt => q
  | Gt => (q + 1)%Z
  | Eq => if Z.even q then q else (q + 1)%Z
  end.

(** The [e] with [2 ^ e <= n / d < 2 ^ (e + 1)]. *)
Definition floor_log2 (n d : positive) : Z :=
  let e := (Z.log2 (Zpos n) - Z.log2 (Zpos d))%Z in
  if (if 0 <=? e then Zpos d * 2 ^ e <=? Zpos n
      else Zpos d <=? Zpos n * 2 ^ (- e))%Z
  then e else (e - 1)%Z.

Definition binary64_of_positive (n d : positive) : number :=
  let e := floor_log2 n d in
  let k := Z.max (e - 52) (-1074) in
  if (0 <=? k)%Z then
    let m := round_half_even (Zpos n) (Zpos d * 2 ^ k) in
    if (2 ^ 1024 <=? m * 2 ^ k)%Z then Infinity false
    else Finite (inject_Z (m * 2 ^ k))
  else
    let m := round_half_even (Zpos n * 2 ^ (- k)) (Zpos d) in
    Finite (Qred (Qmake m (Z.to_pos (2 ^ (- k))))).

Definition negate (x : number) : number :=
  match x with
  | NaN => NaN
  | Infinity b => Infinity (negb b)
  | Finite q => Finite (- q)
  end.

Definition binary64 (q : Q) : number :=
  match Qnum q with
  | Z0 => Finite 0
  | Zpos n => binary64_of_positive n (Qden q)
  | Zneg n => negate (binary64_of_positive n (Qden q))
  end.

Fixpoint starts_with (prefix s : jsstring) : bool :=
  match prefix, s with
  | [], _ => true
  | c :: prefix', d :: s' => (c =? d)%N && starts_with prefix' s'
  | _ :: _, [] => false
  end.

Definition StrUnsignedDecimalLiteral (s : jsstring) : option number :=
  if starts_with (units "Infinity") s then Some (Infinity false)
  else
    let '(ip, ni, r1) := DecimalDigits s 0%Z 0%Z in
    match r1 with
    | c :: r2 =>
        if is_dot c then
          let '(m, nf, r3) := DecimalDigits r2 ip 0%Z in
          if ((ni =? 0) && (nf =? 0))%Z then None
          else Some (binary64 (scale10 m (ExponentPart r3 - nf)))
        else
          if (ni =? 0)%Z then None
          else Some (binary64 (scale10 ip (ExponentPart r1)))
    | [] =>
        if (ni =? 0)%Z then None
        else Some (binary64 (scale10 ip 0))
    end.

Definition StrDecimalLiteral (s : jsstring) : option number :=
  match s with
  | c :: r =>
      if is_plus c then StrUnsignedDecimalLiteral r
      else if is_minus c then option_map negate (StrUnsignedDecimalLiteral r)
      else StrUnsignedDecimalLiteral s
  | [] => None
  end.

(** White space and line terminators: TAB, LF, VT, FF, CR, SP, NBSP,
    U+1680, U+2000 to U+200A, LS, PS, U+202F, U+205F, U+3000 and
    ZWNBSP. *)
Definition StrWhiteSpaceChar (c : code_unit) : bool :=
  ((9 <=? c) && (c <=? 13) || (c =? 32) || (c =? 160) || (c =? 5760)
   || (8192 <=? c) && (c <=? 8202) || (c =? 8232) || (c =? 8233)
   || (c =? 8239) || (c =? 8287) || (c =? 12288) || (c =? 65279))%N.

Fixpoint TrimStart (s : jsstring) : jsstring :=
  match s with
  | c :: rest => if StrWhiteSpaceChar c then TrimStart rest else s
  | [] => s
  end.

Definition parseFloat_string (s : jsstring) : number :=
  match StrDecimalLiteral (TrimStart s) with
  | Some n => n
  | None => NaN
  end.

(** [ToString(v)] on a JSON value.  It raises on an object that has an
    own [toString] property: the property is not callable, and
    [Object.prototype.valueOf] returns the object, so [ToPrimitive] ends
    in a [TypeError].  An array is joined with commas and converts every
    element. *)
Fixpoint ToString_completes (v : value) : bool :=
  match v with
  | Obj props =>
      match own_property (units "toString") props with
      | Some _ => false
      | None => true
      end
  | Arr elements => forallb ToString_completes elements
  | _ => true
  end.

(** The number read from the front of [ToString(v)]: a number prints to
    a literal that reads back as itself; ["true"], ["false"], ["null"],
    ["undefined"] and ["[object Object]"] have no numeric prefix; an
    array prints its elements separated by commas, so that the prefix
    lies within its first element. *)
Fixpoint numeric_prefix (v : value) : number :=
  match v with
  | Num n => n
  | Str s => parseFloat_string s
  | Arr (first :: _) => numeric_prefix first
  | _ => NaN
  end.

Definition parseFloat (v : value) : Completion number :=
  if ToString_completes v then Normal (numeric_prefix v)
  else Throw (TypeError "Cannot convert object to primitive value").

End JS.

Import JS.
Open Scope string_scope.
Open Scope list_scope.
Open Scope Z_scope.

(** ** A state and exception monad for the handlers

    A handler reads and writes the module-level state and may raise; the
    state reached when an exception is raised is kept, as in JavaScript. *)

Definition M (S A : Type) : Type := S -> Completion A * S.

Definition ret {S A : Type} (a : A) : M S A := fun s => (Normal a, s).

Definition bind {S A B : Type} (m : M S A) (k : A -> M S B) : M S B :=
  fun s =>
    match m s with
    | (Normal a, s') => k a s'
    | (Throw e, s') => (Throw e, s')
    end.

Definition lift {S A : Type} (c : Completion A) : M S A := fun s => (c, s).

Definition gets {S A : Type} (f : S -> A) : M S A := fun s => (Normal (f s), s).

Definition modify {S : Type} (f : S -> S) : M S unit := fun s => (Normal tt, f s).

(** [try { body } catch (error) { handler }]. *)
Definition try_catch {S A : Type} (body : M S A) (handler : Error -> M S A)
  : M S A :=
  fun s =>
    match body s with
    | (Normal a, s') => (Normal a, s')
    | (Throw e, s') => handler e s'
    end.

Notation "x <- m ;; k" := (bind m (fun x => k))
  (at level 61, m at next level, right associativity).
Notation "m ;; k" := (bind m (fun _ => k))
  (at level 61, right associativity).

(** ** The [Score] model of mongoose

    The operations the handlers call on the model.  Each may reject;
    [save] and [deleteMany] return the collection they leave behind.
    [save] receives the fields [name], [time] and [accuracy] the handler
    passes to [new Score]; the model casts them and fills in the date. *)
Class ScoreModel : Type := {
  Collection : Type;
  Document : Type;
  Score_save : value -> number -> value -> Collection
               -> Completion Document * Collection;
  Score_find_sort_time_limit : Z -> Collection -> Completion (list Document);
  Score_countDocuments : Collection -> Completion Z;
  Score_deleteMany : Collection -> Completion unit * Collection
}.

(** A store that cannot be reached: every operation rejects. *)
Definition unreachable : Error :=
  {| error_name := "MongooseError"; message := "connection refused" |}.

Definition NoStore : ScoreModel := {|
  Collection := unit;
  Document := unit;
  Score_save := fun _ _ _ c => (Throw unreachable, c);
  Score_find_sort_time_limit := fun _ _ => Throw unreachable;
  Score_countDocuments := fun _ => Throw unreachable;
  Score_deleteMany := fun c => (Throw unreachable, c)
|}.

(** ** server.js *)

(** The record the memory branch builds. *)
Record ScoreData : Type := {
  id : Z;
  name : jsstring;
  time : number;
  accuracy : value;
  date : string
}.

(** What a call reads from its environment: the connection state of
    mongoose and the clock. *)
Record Env : Type := {
  readyState : Z;
  Date_now : Z;
  toISOString : string
}.

Section Server.
Context {model : ScoreModel}.

(** [let memoryLeaderboard = []] and the collection behind [Score]. *)
Record State : Type := {
  memoryLeaderboard : list ScoreData;
  collection : Collection
}.

Definition set_memoryLeaderboard (l : list ScoreData) (s : State) : State :=
  {| memoryLeaderboard := l; collection := collection s |}.

Definition set_collection (c : Collection) (s : State) : State :=
  {| memoryLeaderboard := memoryLeaderboard s; collection := c |}.

Definition on_collection {A : Type}
  (op : Collection -> Completion A * Collection) : M State A :=
  fun s => let (r, c) := op (collection s) in (r, set_collection c s).

Definition read_collection {A : Type}
  (op : Collection -> Completion A) : M State A :=
  fun s => (op (collection s), s).

(** The JSON bodies the three routes answer with. *)
Inductive Json : Type :=
| MissingParameters (error : string) (required : list string) (received : value)
| SavedToDatabase (success : bool) (message : string) (data : Document)
    (storage : string) (timestamp : string)
| SavedToMemory (success : bool) (message : string) (data : ScoreData)
    (storage : string) (rank : Z) (totalPlayers : Z)
| DatabaseLeaderboard (leaderboard : list Document) (count : Z)
    (timestamp : string) (storage : string) (message : string)
| MemoryLeaderboard (leaderboard : list ScoreData) (count : Z)
    (timestamp : string) (storage : string) (message : string)
| Cleared (success : bool) (message : string) (storage : string)
    (timestamp : string)
| Failed (error : string) (message : string) (timestamp : string)
| ServerError (error : string) (message : string) (timestamp : string)
    (stack : option string).

Record Response : Type := { status : Z; json : Json }.

Definition length_of {A : Type} (l : list A) : Z := Z.of_nat (List.length l).

(** [(a, b) => a.time - b.time] *)
Definition by_time (a b : ScoreData) : number := subtract (time a) (time b).

(** The [try] block of [app.post('/api/score')]. *)
Definition post_score_try (env : Env) (body : value) : M State Response :=
  name <- lift (Get body "name") ;;
  time <- lift (Get body "time") ;;
  accuracy <- lift (Get body "accuracy") ;;
  if negb (ToBoolean name) || negb (ToBoolean time) then
    ret {| status := 400;
           json := MissingParameters "缺少必要參數" ["name"; "time"] body |}
  else if readyState env =? 1 then
    name20 <- lift (call_substring name 0 20) ;;
    seconds <- lift (parseFloat time) ;;
    savedScore <- on_collection
      (Score_save (Str name20) seconds (or_else accuracy (Num (num 100)))) ;;
    ret {| status := 201;
           json := SavedToDatabase true "分數已保存到數據庫" savedScore
                     "mongodb" (toISOString env) |}
  else
    name20 <- lift (call_substring name 0 20) ;;
    seconds <- lift (parseFloat time) ;;
    let scoreData :=
      {| id := Date_now env;
         name := name20;
         time := seconds;
         accuracy := or_else accuracy (Num (num 100));
         date := toISOString env |} in
    modify (fun s => set_memoryLeaderboard (memoryLeaderboard s ++ [scoreData])%list s) ;;
    modify (fun s => set_memoryLeaderboard (Array_sort by_time (memoryLeaderboard s)) s) ;;
    length <- gets (fun s => length_of (memoryLeaderboard s)) ;;
    (if 50 <? length
     then modify (fun s => set_memoryLeaderboard (Array_slice (memoryLeaderboard s) 0 50) s)
     else ret tt) ;;
    leaderboard <- gets memoryLeaderboard ;;
    ret {| status := 201;
           json := SavedToMemory true "分數已記錄（內存存儲，重啟後會丟失）"
                     scoreData "memory"
                     (Array_findIndex (fun s => id s =? id scoreData) leaderboard + 1)
                     (length_of leaderboard) |}.

Definition post_score_catch (env : Env) (error : Error) : M State Response :=
  ret {| status := 500;
         json := Failed "提交分數失敗" (message error) (toISOString env) |}.

Definition post_score (env : Env) (body : value) : M State Response :=
  try_catch (post_score_try env body) (post_score_catch env).

(** The [try] block of [app.get('/api/leaderboard')]. *)
Definition get_leaderboard_try (env : Env) : M State Response :=
  if readyState env =? 1 then
    scores <- read_collection (Score_find_sort_time_limit 20) ;;
    count <- read_collection Score_countDocuments ;;
    ret {| status := 200;
           json := DatabaseLeaderboard scores count (toISOString env) "mongodb"
                     (if length_of scores =? 0
                      then "暫無紀錄，成為第一個挑戰者！"
                      else "排行榜加載成功") |}
  else
    leaderboard <- gets memoryLeaderboard ;;
    ret {| status := 200;
           json := MemoryLeaderboard (Array_slice leaderboard 0 20)
                     (length_of leaderboard) (toISOString env) "memory"
                     (if length_of leaderboard =? 0
                      then "暫無紀錄，成為第一個挑戰者！"
                      else "排行榜加載成功") |}.

Definition get_leaderboard_catch (env : Env) (error : Error) : M State Response :=
  ret {| status := 500;
         json := Failed "獲取排行榜失敗" (message error) (toISOString env) |}.

Definition get_leaderboard (env : Env) : M State Response :=
  try_catch (get_leaderboard_try env) (get_leaderboard_catch env).

(** The [try] block of [app.delete('/api/leaderboard')]. *)
Definition delete_leaderboard_try (env : Env) : M State Response :=
  if readyState env =? 1 then
    on_collection Score_deleteMany ;;
    ret {| status := 200;
           json := Cleared true "MongoDB 排行榜已清空" "mongodb" (toISOString env) |}
  else
    modify (set_memoryLeaderboard []) ;;
    ret {| status := 200;
           json := Cleared true "內存排行榜已清空" "memory" (toISOString env) |}.

Definition delete_leaderboard_catch (env : Env) (error : Error) : M State Response :=
  ret {| status := 500;
         json := Failed "清空排行榜失敗" (message error) (toISOString env) |}.

Definition delete_leaderboard (env : Env) : M State Response :=
  try_catch (delete_leaderboard_try env) (delete_leaderboard_catch env).

(** The error-handling middleware registered last: it answers an error
    that reaches Express with status 500, and with the stack unless
    [NODE_ENV] is ["production"]. *)
Definition error_middleware (NODE_ENV : option string) (env : Env)
  (err : Error) (stack : string) : Response :=
  {| status := 500;
     json := ServerError "伺服器錯誤" (message err) (toISOString env)
               (match NODE_ENV with
                | Some mode => if (mode =? "production")%string then None else Some stack
                | None => Some stack
                end) |}.

(** A request to one of the three routes, and the server as a
    transition on its state. *)
Inductive Request : Type :=
| POST_score (body : value)
| GET_leaderboard
| DELETE_leaderboard.

Definition handle (env : Env) (req : Request) : M State Response :=
  match req with
  | POST_score body => post_score env body
  | GET_leaderboard => get_leaderboard env
  | DELETE_leaderboard => delete_leaderboard env
  end.

Definition handle_try (env : Env) (req : Request) : M State Response :=
  match req with
  | POST_score body => post_score_try env body
  | GET_leaderboard => get_leaderboard_try env
  | DELETE_leaderboard => delete_leaderboard_try env
  end.

(** The state after a sequence of calls, each with its environment. *)
Fixpoint run (calls : list (Env * Request)) (s : State) : State :=
  match calls with
  | [] => s
  | (env, req) :: rest => run rest (snd (handle env req s))
  end.

(** The outcomes of the calls of a sequence, in order. *)
Fixpoint outcomes (calls : list (Env * Request)) (s : State)
  : list (Completion Response) :=
  match calls with
  | [] => []
  | (env, req) :: rest =>
      fst (handle env req s) :: outcomes rest (snd (handle env req s))
  end.

(** The record a call put into the in-memory list, if it did. *)
Definition recorded (outcome : Completion Response) : list ScoreData :=
  match outcome with
  | Normal {| json := SavedToMemory _ _ data _ _ _ |} => [data]
  | _ => []
  end.

(** The records submitted to the in-memory list by a sequence of calls. *)
Definition submitted (calls : list (Env * Request)) (s : State)
  : list ScoreData :=
  flat_map recorded (outcomes calls s).

End Server.

Arguments State model : clear implicits.
Arguments Response model : clear implicits.

(** ** The memory-only server (the variant without mongoose)

    The same three routes over [let leaderboard = []]; only the [POST]
    route is wrapped in [try]/[catch]. *)
Module MemoryOnly.

Inductive Json : Type :=
| MissingParameters (error : string) (required : list string) (received : value)
| Saved (success : bool) (message : string) (data : ScoreData)
    (rank : Z) (totalPlayers : Z)
| Leaderboard (leaderboard : list ScoreData) (count : Z)
    (timestamp : string) (message : string)
| Cleared (success : bool) (message : string) (timestamp : string)
| Failed (error : string) (message : string) (timestamp : string).

Record Response : Type := { status : Z; json : Json }.

Definition State : Type := list ScoreData.

Definition by_time (a b : ScoreData) : number := subtract (time a) (time b).

Definition length_of {A : Type} (l : list A) : Z := Z.of_nat (List.length l).

Definition post_score_try (env : Env) (body : value) : M State Response :=
  name <- lift (Get body "name") ;;
  time <- lift (Get body "time") ;;
  accuracy <- lift (Get body "accuracy") ;;
  if negb (ToBoolean name) || negb (ToBoolean time) then
    ret {| status := 400;
           json := MissingParameters "缺少必要參數" ["name"; "time"] body |}
  else
    name20 <- lift (call_substring name 0 20) ;;
    seconds <- lift (parseFloat time) ;;
    let scoreData :=
      {| id := Date_now env;
         name := name20;
         time := seconds;
         accuracy := or_else accuracy (Num (num 100));
         date := toISOString env |} in
    modify (fun leaderboard => (leaderboard ++ [scoreData])%list) ;;
    modify (fun leaderboard => Array_sort by_time leaderboard) ;;
    length <- gets (fun leaderboard => length_of leaderboard) ;;
    (if 50 <? length
     then modify (fun leaderboard => Array_slice leaderboard 0 50)
     else ret tt) ;;
    leaderboard <- gets (fun leaderboard => leaderboard) ;;
    ret {| status := 201;
           json := Saved true "分數已記錄" scoreData
                     (Array_findIndex (fun s => id s =? id scoreData) leaderboard + 1)
                     (length_of leaderboard) |}.

Definition post_score (env : Env) (body : value) : M State Response :=
  try_catch (post_score_try env body)
    (fun error =>
       ret {| status := 500;
              json := Failed "提交分數失敗" (message error) (toISOString env) |}).

Definition get_leaderboard (env : Env) : M State Response :=
  leaderboard <- gets (fun leaderboard => leaderboard) ;;
  ret {| status := 200;
         json := Leaderboard (Array_slice leaderboard 0 20)
                   (length_of leaderboard) (toISOString env)
                   (if length_of leaderboard =? 0
                    then "暫無紀錄，成為第一個挑戰者！"
                    else "排行榜加載成功") |}.

Definition delete_leaderboard (env : Env) : M State Response :=
  modify (fun _ => []) ;;
  ret {| status := 200;
         json := Cleared true "排行榜已清空" (toISOString env) |}.

(** The three routes as one transition. *)
Definition handle (env : Env) (req : Request) : M State Response :=
  match req with
  | POST_score body => post_score env body
  | GET_leaderboard => get_leaderboard env
  | DELETE_leaderboard => delete_leaderboard env
  end.

End MemoryOnly.

(** ** The mongoose-only server (the variant without the in-memory list)

    Its [POST /api/score] route: the same presence test, a shorter 400
    body, and [name] handed to the model as it came.  (The route also
    passes [date: new Date()], the value the schema defaults to.) *)
Module MongooseOnly.
Section Post.
Context {model : ScoreModel}.

Inductive Json : Type :=
| MissingParameters (error : string)
| Saved (success : bool) (message : string) (data : Document)
| Failed (error : string)
| Leaderboard (leaderboard : list Document) (count : Z)
| MemoryNotice (leaderboard : list Document) (count : Z) (message : string)
| Cleared (success : bool) (message : string).

Record Response : Type := { status : Z; json : Json }.

Definition post_score_try (body : value) : M Collection Response :=
  name <- lift (Get body "name") ;;
  time <- lift (Get body "time") ;;
  accuracy <- lift (Get body "accuracy") ;;
  if negb (ToBoolean name) || negb (ToBoolean time) then
    ret {| status := 400; json := MissingParameters "缺少必要參數" |}
  else
    seconds <- lift (parseFloat time) ;;
    score <- (fun c => Score_save name seconds (or_else accuracy (Num (num 100))) c) ;;
    ret {| status := 201; json := Saved true "分數已記錄" score |}.

Definition post_score (body : value) : M Collection Response :=
  try_catch (post_score_try body)
    (fun error => ret {| status := 500; json := Failed "提交分數失敗" |}).

(** [app.get('/api/leaderboard')]: without a connection the route answers
    an empty list and never calls the model; with one it answers the
    first 50 documents by time and counts the documents it answers. *)
Definition get_leaderboard_try (env : Env) : M Collection Response :=
  if negb (readyState env =? 1) then
    ret {| status := 200;
           json := MemoryNotice [] 0 "使用內存模式，重啟後數據會丟失" |}
  else
    leaderboard <- (fun c => (Score_find_sort_time_limit 50 c, c)) ;;
    ret {| status := 200;
           json := Leaderboard leaderboard (Z.of_nat (List.length leaderboard)) |}.

Definition get_leaderboard (env : Env) : M Collection Response :=
  try_catch (get_leaderboard_try env)
    (fun error => ret {| status := 500; json := Failed "獲取排行榜失敗" |}).

(** [app.delete('/api/leaderboard')]: no test of the connection. *)
Definition delete_leaderboard : M Collection Response :=
  try_catch
    (Score_deleteMany ;;
     ret {| status := 200; json := Cleared true "排行榜已清空" |})
    (fun error => ret {| status := 500; json := Failed "清空排行榜失敗" |}).

End Post.
End MongooseOnly.

(** ** The MongoDB snippet in front of the server module

    Its [POST /api/score] route: no presence test; the name is cut, the
    time parsed and the document saved inside one [try]. *)
Module Snippet.
Section Post.
Context {model : ScoreModel}.

Inductive Json : Type :=
| Saved (success : bool) (message : string) (data : Document)
| Failed (error : string).

Record Response : Type := { status : Z; json : Json }.

(** [name.substring(start, end)] where [name] may be anything: reading
    the property of [undefined] or [null] raises as well. *)
Definition name_substring (v : value) (start end_ : Z) : Completion jsstring :=
  match v with
  | Undefined =>
      Throw (TypeError "Cannot read properties of undefined (reading 'substring')")
  | Null =>
      Throw (TypeError "Cannot read properties of null (reading 'substring')")
  | _ => call_substring v start end_
  end.

Definition post_score_try (body : value) : M Collection Response :=
  name <- lift (Get body "name") ;;
  time <- lift (Get body "time") ;;
  accuracy <- lift (Get body "accuracy") ;;
  name20 <- lift (name_substring name 0 20) ;;
  seconds <- lift (parseFloat time) ;;
  savedScore <- (fun c => Score_save (Str name20) seconds
                            (or_else accuracy (Num (num 100))) c) ;;
  ret {| status := 201; json := Saved true "分數已保存" savedScore |}.

Definition post_score (body : value) : M Collection Response :=
  try_catch (post_score_try body)
    (fun error => ret {| status := 500; json := Failed "保存分數失敗" |}).

End Post.
End Snippet.

(** ** Vocabulary of the properties *)

(** The call is served from the in-memory list. *)
Definition memory_mode (env : Env) : Prop := readyState env <> 1.

(** [a.time <= b.time], as JavaScript compares. *)
Definition time_le (a b : ScoreData) : Prop := lessEq (time a) (time b) = true.

(** Ascending by time: every record is at most its successor. *)
Definition ascending (l : list ScoreData) : Prop := Sorted time_le l.

(** The first [n] code units of a string. *)
Definition first_characters (n : nat) (s : jsstring) : jsstring :=
  firstn n s.

(** The time a body carries does not read as [NaN]. *)
Definition numeric_time (body : value) : Prop :=
  forall t, Get body "time" = Normal t -> parseFloat t <> Normal NaN.


(** The time of a record is a number, not [NaN]. *)
Definition timed (r : ScoreData) : Prop := isNaN (time r) = false.

(** [r] put into a list behind the records whose time is at most its
    own: where a stable sort takes a record appended to a sorted list. *)
Fixpoint insert_behind (r : ScoreData) (l : list ScoreData) : list ScoreData :=
  match l with
  | [] => [r]
  | y :: rest =>
      if lessThan (time r) (time y) then r :: y :: rest
      else y :: insert_behind r rest
  end.

(** The record the memory branch of [POST /api/score] builds from the
    name [nm], the time [t] and the accuracy [a] of the body. *)
Definition new_record (env : Env) (nm : jsstring) (t a : value) : ScoreData :=
  {| id := Date_now env;
     name := String_substring nm 0 20;
     time := numeric_prefix t;
     accuracy := or_else a (Num (num 100));
     date := toISOString env |}.

(** The list the memory branch leaves: the record appended, the list
    sorted, the first 50 kept. *)
Definition resorted (l : list ScoreData) (r : ScoreData) : list ScoreData :=
  firstn 50 (Array_sort by_time (l ++ [r])).

(** A call of a sequence that runs on the in-memory list and does not
    clear it: a submission or a read in memory mode. *)
Definition memory_call (call : Env * Request) : Prop :=
  memory_mode (fst call) /\ snd call <> DELETE_leaderboard.

(** The time a call submits, if it submits one, does not read as [NaN]. *)
Definition numeric_call (call : Env * Request) : Prop :=
  match snd call with
  | POST_score body => numeric_time body
  | _ => True
  end.

(** ** Sample calls *)

(** The server just started, with no store within reach. *)
Definition started : State NoStore := @Build_State NoStore [] tt.

(** The clock at midnight of 1 January 2024, in milliseconds. *)
Definition midnight : Z := 1704067200000.

(** A call [ms] milliseconds after midnight while mongoose is
    disconnected.  (The date text is carried along, never looked at.) *)
Definition disconnected (ms : Z) : Env :=
  {| readyState := 0; Date_now := midnight + ms;
     toISOString := "2024-01-01T00:00:00.000Z" |}.

(** The body [{ name, time }] and [POST /api/score] with that body. *)
Definition entry (nm : jsstring) (t : value) : value :=
  Obj [(units "name", Str nm); (units "time", t)].

Definition submit (nm : jsstring) (t : value) : Request :=
  POST_score (entry nm t).

(** Fifty submissions of ten seconds each, one per millisecond. *)
Definition fifty_calls : list (Env * Request) :=
  map (fun i => (disconnected (Z.of_nat i), submit "player" (Num (num 10))))
      (seq 1 50).

Definition full_board : State NoStore := run fifty_calls started.

(** Fifty-one submissions with the times 51, 50, ..., 1. *)
Definition countdown_calls : list (Env * Request) :=
  map (fun i => (disconnected (Z.of_nat i),
                 submit "player" (Num (num (52 - Z.of_nat i)))))
      (seq 1 51).

(** Three submissions, the second with a time that is not a number. *)
Definition unparsed_calls : list (Env * Request) :=
  [ (disconnected 1, submit "Ann" (Num (num 5)));
    (disconnected 2, submit "Bob" (Str "abc"));
    (disconnected 3, submit "Cy" (Num (num 3))) ].

(** A call [ms] milliseconds after midnight while mongoose is connected. *)
Definition connected (ms : Z) : Env :=
  {| readyState := 1; Date_now := midnight + ms;
     toISOString := "2024-01-01T00:00:00.000Z" |}.

(** The body [{ name: "Al", time: 12.5, accuracy: 0 }]. *)
Definition zero_accuracy : value :=
  Obj [(units "name", Str "Al"); (units "time", Num (Finite (25 # 2))); (units "accuracy", Num (num 0))].

(** ** Vocabulary of the further properties *)

(** A record as the memory branch builds it: a name of 1 to 20 code
    units and an accuracy that is not falsy. *)
Definition well_formed (r : ScoreData) : Prop :=
  (1 <= List.length (name r) <= 20)%nat /\ ToBoolean (accuracy r) = true.

(** What the sort and the trim keep of the in-memory list. *)
Definition leaderboard_invariant (l : list ScoreData) : Prop :=
  Forall timed l /\ ascending l /\ (List.length l <= 50)%nat.

(** An answer of the server as the memory-only variant words it: the
    [storage] tag is dropped and the two texts that name the storage are
    replaced; the answers of the database branches have no counterpart. *)
Definition as_memory_only {model : ScoreModel} (r : Response model)
  : option MemoryOnly.Response :=
  match json r with
  | MissingParameters error required received =>
      Some {| MemoryOnly.status := status r;
              MemoryOnly.json := MemoryOnly.MissingParameters error required received |}
  | SavedToMemory success _ data _ rank totalPlayers =>
      Some {| MemoryOnly.status := status r;
              MemoryOnly.json :=
                MemoryOnly.Saved success "分數已記錄" data rank totalPlayers |}
  | MemoryLeaderboard leaderboard count timestamp _ message =>
      Some {| MemoryOnly.status := status r;
              MemoryOnly.json :=
                MemoryOnly.Leaderboard leaderboard count timestamp message |}
  | Cleared success _ _ timestamp =>
      Some {| MemoryOnly.status := status r;
              MemoryOnly.json := MemoryOnly.Cleared success "排行榜已清空" timestamp |}
  | Failed error message timestamp =>
      Some {| MemoryOnly.status := status r;
              MemoryOnly.json := MemoryOnly.Failed error message timestamp |}
  | _ => None
  end.

(** An answer that carries no document, as an answer of the server over
    [NoStore]; the two answers of the database branches that carry
    documents have none. *)
Definition document_free {model : ScoreModel} (r : Response model)
  : option (Response NoStore) :=
  match json r with
  | MissingParameters error required received =>
      Some {| status := status r;
              json := MissingParameters error required received |}
  | SavedToMemory success message data storage rank totalPlayers =>
      Some {| status := status r;
              json := SavedToMemory success message data storage rank totalPlayers |}
  | MemoryLeaderboard leaderboard count timestamp storage message =>
      Some {| status := status r;
              json := MemoryLeaderboard leaderboard count timestamp storage message |}
  | Cleared success message storage timestamp =>
      Some {| status := status r;
              json := Cleared success message storage timestamp |}
  | Failed error message timestamp =>
      Some {| status := status r; json := Failed error message timestamp |}
  | ServerError error message timestamp stack =>
      Some {| status := status r;
              json := ServerError error message timestamp stack |}
  | SavedToDatabase _ _ _ _ _ | DatabaseLeaderboard _ _ _ _ _ => None
  end.

(** The state of the server over [NoStore] with the in-memory list [l]. *)
Definition over_no_store (l : list ScoreData) : State NoStore :=
  @Build_State NoStore l tt.

(** A store that keeps what it is handed: [save] appends the three
    fields and answers them, the reads answer what was saved. *)
Definition ListStore : ScoreModel := {|
  Collection := list (value * number * value);
  Document := value * number * value;
  Score_save := fun n t a c => (Normal (n, t, a), c ++ [(n, t, a)]);
  Score_find_sort_time_limit := fun limit c =>
    Normal (firstn (Z.to_nat limit)
              (Array_sort (fun x y => subtract (snd (fst x)) (snd (fst y))) c));
  Score_countDocuments := fun c => Normal (Z.of_nat (List.length c));
  Score_deleteMany := fun _ => (Normal tt, [])
|}.


(** Three submissions of 12, 9 and 15 seconds, one per millisecond. *)
Definition three_calls : list (Env * Request) :=
  [ (disconnected 1, submit "Ann" (Num (num 12)));
    (disconnected 2, submit "Bob" (Num (num 9)));
    (disconnected 3, submit "Cy" (Num (num 15))) ].

Definition small_board : State NoStore := run three_calls started.

Unset Implicit Arguments.

(** ** [parseFloat] reads a binary64 value *)

(** ["0.1"] reads as the double next to one tenth, and a decimal that
    differs from it in the twentieth place reads as the same double. *)
Example parseFloat_rounds_to_nearest :
  parseFloat_string "0.1" = Finite (3602879701896397 # 36028797018963968) /\
  parseFloat_string "0.10000000000000000001" = parseFloat_string "0.1".
Proof. split; vm_compute; reflexivity. Qed.

(** A tie goes to the even significand: 2^53 + 1 reads as 2^53. *)
Example parseFloat_rounds_ties_to_even :
  parseFloat_string "9007199254740993" = num 9007199254740992 /\
  parseFloat_string "9007199254740995" = num 9007199254740996.
Proof. split; vm_compute; reflexivity. Qed.

(** Beyond the largest double the result is an infinity, and below half
    the smallest subnormal it is zero. *)
Example parseFloat_overflows_and_underflows :
  parseFloat_string "1e400" = Infinity false /\
  parseFloat_string "-1e400" = Infinity true /\
  parseFloat_string "1e-400" = num 0 /\
  parseFloat_string "5e-324" = Finite (1 # Pos.pow 2 1074).
Proof. repeat split; vm_compute; reflexivity. Qed.

(** Only a prefix is read, after white space of any kind. *)
Example parseFloat_reads_a_prefix :
  parseFloat_string "  12.5abc" = Finite (25 # 2) /\
  parseFloat_string "0x1A" = num 0 /\
  parseFloat_string [12288%N; 55%N] = num 7 /\
  parseFloat_string "abc" = NaN.
Proof. repeat split; vm_compute; reflexivity. Qed.

(** ** Numbers: the comparator and the order *)

Lemma Qcompare_minus_0 (p q : Q) : Qcompare (p - q) (inject_Z 0) = Qcompare p q.
Proof.
  change (inject_Z 0) with 0%Q.
  destruct (Qcompare p q) eqn:E.
  - rewrite <- Qeq_alt in *. lra.
  - rewrite <- Qlt_alt in *. lra.
  - rewrite <- Qgt_alt in *. lra.
Qed.

Lemma negative_subtract (a b : number) :
  negative (subtract a b) = lessThan a b.
Proof.
  unfold negative, num.
  destruct a as [|[]|p], b as [|[]|q]; try reflexivity.
  simpl. now rewrite Qcompare_minus_0.
Qed.

Lemma lessEq_trans (a b c : number) :
  lessEq a b = true -> lessEq b c = true -> lessEq a c = true.
Proof.
  destruct a as [|[]|p], b as [|[]|q], c as [|[]|r]; simpl; try easy.
  destruct (Qcompare p q) eqn:E1; try easy;
  destruct (Qcompare q r) eqn:E2; try easy; intros _ _;
  destruct (Qcompare p r) eqn:E3; try easy; exfalso;
  rewrite <- ?Qeq_alt, <- ?Qlt_alt, <- ?Qgt_alt in *; lra.
Qed.

Lemma lessThan_lessEq (a b : number) :
  lessThan a b = true -> lessEq a b = true.
Proof.
  destruct a as [|[]|p], b as [|[]|q]; simpl; try easy.
  now destruct (Qcompare p q).
Qed.

Lemma lessThan_false_lessEq (a b : number) :
  isNaN a = false -> isNaN b = false ->
  lessThan a b = false -> lessEq b a = true.
Proof.
  destruct a as [|[]|p], b as [|[]|q]; simpl; try easy.
  intros _ _. rewrite <- (Qcompare_antisym p q).
  now destruct (Qcompare p q).
Qed.

Lemma lessEq_lessThan_false (a b : number) :
  lessEq a b = true -> lessThan b a = false.
Proof.
  destruct a as [|[]|p], b as [|[]|q]; simpl; try easy.
  rewrite <- (Qcompare_antisym p q).
  now destruct (Qcompare p q).
Qed.

(** ** The sort *)

Section SortFacts.
Variable A : Type.
Variable comparefn : A -> A -> number.

Lemma insert_Permutation (x : A) (l : list A) :
  Permutation (insert comparefn x l) (x :: l).
Proof.
  induction l as [|y l IH]; simpl; [reflexivity|].
  destruct (negative (comparefn y x)); [|reflexivity].
  rewrite IH. apply perm_swap.
Qed.

Lemma Array_sort_Permutation (l : list A) :
  Permutation (Array_sort comparefn l) l.
Proof.
  induction l as [|x l IH]; simpl; [reflexivity|].
  rewrite insert_Permutation. now constructor.
Qed.

Lemma Array_sort_length (l : list A) :
  List.length (Array_sort comparefn l) = List.length l.
Proof. apply Permutation_length, Array_sort_Permutation. Qed.
End SortFacts.

Lemma insert_by_time_cons (x y : ScoreData) (rest : list ScoreData) :
  insert by_time x (y :: rest) =
  if lessThan (time y) (time x) then y :: insert by_time x rest
  else x :: y :: rest.
Proof. simpl. unfold by_time. now rewrite negative_subtract. Qed.

Lemma time_le_trans (a b c : ScoreData) :
  time_le a b -> time_le b c -> time_le a c.
Proof. apply lessEq_trans. Qed.

Lemma insert_StronglySorted (x : ScoreData) (l : list ScoreData) :
  timed x -> Forall timed l -> StronglySorted time_le l ->
  StronglySorted time_le (insert by_time x l).
Proof.
  intros Hx Hl Hs. induction Hs as [|y rest Hs IH Hy].
  - repeat constructor.
  - rewrite insert_by_time_cons. inversion Hl as [|? ? Hty Hrest]; subst.
    destruct (lessThan (time y) (time x)) eqn:E.
    + constructor; [now apply IH|].
      apply Forall_forall. intros z Hz.
      apply (Permutation_in _ (insert_Permutation _ _ x rest)) in Hz.
      destruct Hz as [<-|Hz].
      * now apply lessThan_lessEq.
      * now apply (proj1 (Forall_forall _ _) Hy).
    + assert (Hxy : time_le x y) by now apply lessThan_false_lessEq.
      constructor; [now constructor|].
      constructor; [exact Hxy|].
      eapply Forall_impl; [|exact Hy].
      intros z Hz. now apply time_le_trans with y.
Qed.

Lemma Forall_timed_sort (l : list ScoreData) :
  Forall timed l -> Forall timed (Array_sort by_time l).
Proof.
  intros H. apply Forall_forall. intros z Hz.
  apply (Permutation_in _ (Array_sort_Permutation _ _ l)) in Hz.
  now apply (proj1 (Forall_forall _ _) H).
Qed.

Lemma Array_sort_StronglySorted (l : list ScoreData) :
  Forall timed l -> StronglySorted time_le (Array_sort by_time l).
Proof.
  induction 1 as [|x l Hx Hl IH]; simpl; [constructor|].
  apply insert_StronglySorted; auto using Forall_timed_sort.
Qed.

Lemma Array_sort_sorted_id (l : list ScoreData) :
  StronglySorted time_le l -> Array_sort by_time l = l.
Proof.
  induction 1 as [|x l Hs IH Hx]; [reflexivity|].
  simpl. rewrite IH. destruct l as [|y rest]; [reflexivity|].
  rewrite insert_by_time_cons.
  inversion Hx as [|? ? Hxy _]; subst.
  now rewrite (lessEq_lessThan_false _ _ Hxy).
Qed.

Lemma lessThan_trans (a b c : number) :
  lessThan a b = true -> lessThan b c = true -> lessThan a c = true.
Proof.
  destruct a as [|[]|p], b as [|[]|q], c as [|[]|r]; simpl; try easy.
  destruct (Qcompare p q) eqn:E1; try easy;
  destruct (Qcompare q r) eqn:E2; try easy; intros _ _;
  destruct (Qcompare p r) eqn:E3; try easy; exfalso;
  rewrite <- ?Qeq_alt, <- ?Qlt_alt, <- ?Qgt_alt in *; lra.
Qed.

Lemma lessThan_false_trans (a b c : number) :
  isNaN a = false -> isNaN b = false -> isNaN c = false ->
  lessThan b a = false -> lessThan c b = false -> lessThan c a = false.
Proof.
  intros Ha Hb Hc H1 H2.
  apply lessEq_lessThan_false.
  apply lessEq_trans with b; now apply lessThan_false_lessEq.
Qed.

Lemma insert_insert_behind (x r : ScoreData) (l : list ScoreData) :
  timed x -> timed r -> Forall timed l ->
  insert by_time x (insert_behind r l) =
  insert_behind r (insert by_time x l).
Proof.
  intros Hx Hr Hl. induction Hl as [|y rest Hy Hrest IH].
  - simpl. unfold by_time. rewrite negative_subtract.
    now destruct (lessThan (time r) (time x)).
  - cbn [insert_behind]. rewrite insert_by_time_cons.
    destruct (lessThan (time y) (time x)) eqn:Eyx;
      destruct (lessThan (time r) (time y)) eqn:Ery.
    + rewrite insert_by_time_cons.
      rewrite (lessThan_trans _ _ _ Ery Eyx).
      rewrite insert_by_time_cons, Eyx.
      cbn [insert_behind]. now rewrite Ery.
    + rewrite insert_by_time_cons, Eyx.
      cbn [insert_behind]. rewrite Ery. now rewrite IH.
    + rewrite insert_by_time_cons.
      cbn [insert_behind].
      destruct (lessThan (time r) (time x)) eqn:Erx.
      * now rewrite insert_by_time_cons, Eyx.
      * now rewrite Ery.
    + rewrite insert_by_time_cons, Eyx.
      cbn [insert_behind].
      rewrite (lessThan_false_trans (time x) (time y) (time r)) by assumption.
      now rewrite Ery.
Qed.

Lemma Array_sort_snoc (l : list ScoreData) (r : ScoreData) :
  Forall timed l -> timed r ->
  Array_sort by_time (l ++ [r]) =
  insert_behind r (Array_sort by_time l).
Proof.
  intros Hl Hr. induction Hl as [|x l Hx Hl IH]; [reflexivity|].
  simpl. rewrite IH.
  apply insert_insert_behind; auto using Forall_timed_sort.
Qed.

Lemma firstn_cons_firstn (A : Type) (n : nat) (y : A) (l : list A) :
  firstn n (y :: firstn n l) = firstn n (y :: l).
Proof.
  destruct n as [|m]; [reflexivity|]. rewrite !firstn_cons. f_equal.
  rewrite firstn_firstn. f_equal. lia.
Qed.

Lemma firstn_insert_behind (n : nat) (r : ScoreData) (l : list ScoreData) :
  firstn n (insert_behind r (firstn n l)) = firstn n (insert_behind r l).
Proof.
  revert l. induction n as [|n IH]; intros l; [reflexivity|].
  destruct l as [|y rest]; [reflexivity|].
  cbn [firstn insert_behind].
  destruct (lessThan (time r) (time y)).
  - cbn [firstn]. f_equal. apply firstn_cons_firstn.
  - cbn [firstn]. f_equal. apply IH.
Qed.

Lemma Array_slice_firstn (A : Type) (l : list A) (n : nat) :
  Array_slice l 0 (Z.of_nat n) = firstn n l.
Proof.
  unfold Array_slice, relative_index.
  replace (0 <? 0) with false by reflexivity.
  replace (Z.of_nat n <? 0) with false by (symmetry; apply Z.ltb_ge; lia).
  replace (Z.to_nat (Z.min 0 (Z.of_nat (List.length l)))) with 0%nat by lia.
  simpl skipn.
  replace (Z.to_nat _) with (Nat.min n (List.length l)) by lia.
  destruct (Nat.le_ge_cases n (List.length l)) as [H|H].
  - now rewrite Nat.min_l.
  - rewrite Nat.min_r by assumption.
    now rewrite !firstn_all2.
Qed.

(** ** The handlers, case by case *)

Lemma trim_firstn (l : list ScoreData) :
  (if 50 <? length_of l then Array_slice l 0 50 else l) = firstn 50 l.
Proof.
  unfold length_of. change 50 with (Z.of_nat 50) at 2.
  rewrite Array_slice_firstn.
  destruct (50 <? Z.of_nat (List.length l)) eqn:E; [reflexivity|].
  apply Z.ltb_ge in E. symmetry. apply firstn_all2. lia.
Qed.

Lemma ToBoolean_Str (s : jsstring) : s <> "" -> ToBoolean (Str s) = true.
Proof.
  intros H. destruct s as [|c s]; [now contradiction H|reflexivity].
Qed.

Lemma memory_mode_eqb (env : Env) : memory_mode env -> (readyState env =? 1) = false.
Proof. intros H. now apply Z.eqb_neq. Qed.

Section Handlers.
Context {model : ScoreModel}.

Lemma post_score_memory_accepts (env : Env) (body : value) (s : State model)
    (nm : jsstring) (t a : value) :
  memory_mode env ->
  Get body "name" = Normal (Str nm) -> nm <> "" ->
  Get body "time" = Normal t -> ToBoolean t = true ->
  ToString_completes t = true ->
  Get body "accuracy" = Normal a ->
  let r := new_record env nm t a in
  let l := resorted (memoryLeaderboard s) r in
  post_score env body s =
    (Normal {| status := 201;
               json := SavedToMemory true "分數已記錄（內存存儲，重啟後會丟失）"
                         r "memory"
                         (Array_findIndex (fun x => id x =? id r) l + 1)
                         (length_of l) |},
     set_memoryLeaderboard l s).
Proof.
  intros Hm Hn Hnm Ht Htt Hts Ha r l. subst r l.
  unfold resorted, new_record, post_score, try_catch, post_score_try, bind, lift.
  rewrite Hn, Ht, Ha, (ToBoolean_Str _ Hnm), Htt, (memory_mode_eqb _ Hm).
  cbn [negb orb call_substring]. unfold parseFloat. rewrite Hts.
  cbn [modify gets ret memoryLeaderboard set_memoryLeaderboard].
  set (r := Build_ScoreData _ _ _ _ _).
  set (sorted := Array_sort by_time (memoryLeaderboard s ++ [r])).
  pose proof (trim_firstn sorted) as Htrim.
  destruct (50 <? length_of sorted);
    cbn [modify gets ret memoryLeaderboard set_memoryLeaderboard collection].
  - now rewrite Htrim.
  - now rewrite <- Htrim.
Qed.

Lemma Get_Normal_any (body v : value) (P Q : string) :
  Get body P = Normal v -> exists w, Get body Q = Normal w.
Proof. destruct body; simpl; intros H; try discriminate; eauto. Qed.

Lemma post_score_memory_cases (env : Env) (body : value) (s : State model) :
  memory_mode env ->
  (snd (post_score env body s) = s /\
   recorded (fst (post_score env body s)) = [])
  \/
  (exists nm t a,
      Get body "name" = Normal (Str nm) /\ nm <> "" /\
      Get body "time" = Normal t /\ ToBoolean t = true /\
      ToString_completes t = true /\
      Get body "accuracy" = Normal a).
Proof.
  intros Hm.
  destruct (Get body "name") as [n|e] eqn:Hn.
  2:{ left. unfold post_score, try_catch, post_score_try, bind, lift.
      rewrite Hn. now split. }
  destruct (Get_Normal_any body n "name" "time" Hn) as [t Ht].
  destruct (Get_Normal_any body n "name" "accuracy" Hn) as [a Ha].
  destruct (ToBoolean n) eqn:Bn.
  2:{ left. unfold post_score, try_catch, post_score_try, bind, lift.
      rewrite Hn, Ht, Ha, Bn. now split. }
  destruct (ToBoolean t) eqn:Bt.
  2:{ left. unfold post_score, try_catch, post_score_try, bind, lift.
      rewrite Hn, Ht, Ha, Bn, Bt. now split. }
  destruct (ToString_completes t) eqn:Ct.
  - destruct n as [| |b|x|nm|l|props];
      try (left; unfold post_score, try_catch, post_score_try, bind, lift;
           rewrite Hn, Ht, Ha, Bn, Bt, (memory_mode_eqb _ Hm); now split).
    right. exists nm, t, a. repeat split; auto.
    intros ->. discriminate Bn.
  - left. unfold post_score, try_catch, post_score_try, bind, lift.
    rewrite Hn, Ht, Ha, Bn, Bt, (memory_mode_eqb _ Hm).
    destruct (call_substring n 0 20); [|now split].
    unfold parseFloat. rewrite Ct. now split.
Qed.
End Handlers.

(** ** The in-memory list along a sequence of calls *)

Lemma StronglySorted_firstn (A : Type) (R : A -> A -> Prop) (n : nat) (l : list A) :
  StronglySorted R l -> StronglySorted R (firstn n l).
Proof.
  intros H. revert n. induction H as [|x l Hs IH Hx]; intros [|n]; simpl;
    try constructor; auto.
  rewrite <- (firstn_skipn n l) in Hx. now apply Forall_app in Hx.
Qed.

Lemma StronglySorted_app_le (A : Type) (R : A -> A -> Prop) (l1 l2 : list A) :
  StronglySorted R (l1 ++ l2) ->
  forall x y, In x l1 -> In y l2 -> R x y.
Proof.
  induction l1 as [|a l1 IH]; simpl; intros H x y Hx Hy; [contradiction|].
  inversion H as [|? ? Hs Ha]; subst.
  destruct Hx as [<-|Hx].
  - apply (proj1 (Forall_forall _ _) Ha). apply in_or_app. now right.
  - now apply IH.
Qed.

Lemma Forall_firstn_of (A : Type) (P : A -> Prop) (n : nat) (l : list A) :
  Forall P l -> Forall P (firstn n l).
Proof.
  intros H. rewrite <- (firstn_skipn n l) in H. now apply Forall_app in H.
Qed.

Lemma resorted_firstn_sort (R : list ScoreData) (r : ScoreData) :
  Forall timed R -> timed r ->
  resorted (firstn 50 (Array_sort by_time R)) r =
  firstn 50 (Array_sort by_time (R ++ [r])).
Proof.
  intros HR Hr. unfold resorted.
  pose proof (Array_sort_StronglySorted _ HR) as Hs.
  pose proof (Forall_timed_sort _ HR) as Ht.
  rewrite Array_sort_snoc by auto using Forall_firstn_of.
  rewrite Array_sort_sorted_id by now apply StronglySorted_firstn.
  rewrite firstn_insert_behind.
  now rewrite Array_sort_snoc.
Qed.

Section Sequences.
Context {model : ScoreModel}.

Lemma get_leaderboard_memory (env : Env) (s : State model) :
  memory_mode env ->
  get_leaderboard env s =
    (Normal {| status := 200;
               json := MemoryLeaderboard
                         (Array_slice (memoryLeaderboard s) 0 20)
                         (length_of (memoryLeaderboard s))
                         (toISOString env) "memory"
                         (if length_of (memoryLeaderboard s) =? 0
                          then "暫無紀錄，成為第一個挑戰者！"
                          else "排行榜加載成功") |}, s).
Proof.
  intros Hm. unfold get_leaderboard, try_catch, get_leaderboard_try.
  now rewrite (memory_mode_eqb _ Hm).
Qed.

Lemma run_keeps_first_50 (calls : list (Env * Request))
    (s : State model) (R : list ScoreData) :
  Forall memory_call calls ->
  Forall numeric_call calls ->
  Forall timed R ->
  memoryLeaderboard s = firstn 50 (Array_sort by_time R) ->
  Forall timed (R ++ submitted calls s) /\
  memoryLeaderboard (run calls s) =
    firstn 50 (Array_sort by_time (R ++ submitted calls s)).
Proof.
  intros Hc. revert s R.
  induction Hc as [|[env req] calls [Hm Hreq] Hc IH]; intros s R Hnum HR Hs.
  - unfold submitted. simpl. now rewrite app_nil_r.
  - inversion Hnum as [|? ? Hbody Hnum']; subst.
    unfold submitted. cbn [run outcomes flat_map fst snd] in *.
    fold (submitted calls (snd (handle env req s))).
    destruct req as [body| |]; [| |contradiction].
    + cbn [handle]. unfold numeric_call in Hbody. cbn [snd] in Hbody.
      destruct (post_score_memory_cases env body s Hm)
        as [[Hsame Hnone]|(nm & t & a & Hn & Hnm & Ht & Htt & Hts & Ha)].
      * rewrite Hnone, Hsame. now apply IH.
      * rewrite (post_score_memory_accepts env body s nm t a Hm Hn Hnm Ht Htt Hts Ha).
        cbn [fst snd recorded json].
        set (r := new_record env nm t a).
        assert (Hr : timed r).
        { unfold timed, r. cbn [time new_record].
          specialize (Hbody t Ht). unfold parseFloat in Hbody.
          rewrite Hts in Hbody. destruct (numeric_prefix t); simpl; congruence. }
        rewrite app_assoc.
        apply IH; [assumption| |].
        -- apply Forall_app. split; [assumption|]. now constructor.
        -- cbn [memoryLeaderboard set_memoryLeaderboard].
           rewrite Hs. now apply resorted_firstn_sort.
    + cbn [handle]. rewrite (get_leaderboard_memory env s Hm).
      cbn [fst snd recorded json]. now apply IH.
Qed.

Lemma run_length_capped (calls : list (Env * Request))
    (s : State model) (n : nat) :
  Forall memory_call calls ->
  List.length (memoryLeaderboard s) = Nat.min 50 n ->
  List.length (memoryLeaderboard (run calls s)) =
    Nat.min 50 (n + List.length (submitted calls s)).
Proof.
  intros Hc. revert s n.
  induction Hc as [|[env req] calls [Hm Hreq] Hc IH]; intros s n Hs.
  - unfold submitted. simpl. now rewrite Nat.add_0_r.
  - unfold submitted. cbn [run outcomes flat_map fst snd] in *.
    fold (submitted calls (snd (handle env req s))).
    destruct req as [body| |]; [| |contradiction].
    + cbn [handle].
      destruct (post_score_memory_cases env body s Hm)
        as [[Hsame Hnone]|(nm & t & a & Hn & Hnm & Ht & Htt & Hts & Ha)].
      * rewrite Hnone, Hsame. now apply IH.
      * rewrite (post_score_memory_accepts env body s nm t a Hm Hn Hnm Ht Htt Hts Ha).
        cbn [fst snd recorded json].
        rewrite length_app. cbn [List.length].
        replace (n + (1 + List.length (submitted calls _)))%nat
          with ((n + 1) + List.length
                  (submitted calls
                     (set_memoryLeaderboard
                        (resorted (memoryLeaderboard s) (new_record env nm t a)) s)))%nat
          by lia.
        apply IH. cbn [memoryLeaderboard set_memoryLeaderboard].
        unfold resorted.
        rewrite length_firstn, Array_sort_length, length_app. cbn [List.length].
        lia.
    + cbn [handle]. rewrite (get_leaderboard_memory env s Hm).
      cbn [fst snd recorded json]. now apply IH.
Qed.
End Sequences.

(** ** The in-memory leaderboard is sorted and capped *)

(** C1 (as amended).  Starting from the empty in-memory list, after any
    sequence of memory-mode submissions (reads may be interleaved) the
    list holds [min 50 n] of the [n] records submitted, so never more
    than 50, and exactly 50 after 51 submissions.  When no submitted time
    reads as [NaN], the list is ascending by time and every record it
    dropped has a time at least that of every record it kept: it holds
    the lowest times submitted. *)
Theorem memory_leaderboard_sorted_and_capped (model : ScoreModel)
    (calls : list (Env * Request)) (s : State model) :
  memoryLeaderboard s = [] ->
  Forall memory_call calls ->
  let l := memoryLeaderboard (run calls s) in
  let all := submitted calls s in
  (List.length l <= 50)%nat /\
  List.length l = Nat.min 50 (List.length all) /\
  (List.length all = 51%nat -> List.length l = 50%nat) /\
  (Forall numeric_call calls ->
   ascending l /\
   exists dropped,
     Permutation all (l ++ dropped) /\
     forall kept d, In kept l -> In d dropped -> time_le kept d).
Proof.
  intros Hs Hc l all.
  assert (Hlen : List.length l = Nat.min 50 (List.length all)).
  { apply (run_length_capped calls s 0 Hc). now rewrite Hs. }
  split; [lia|]. split; [exact Hlen|]. split; [lia|].
  intros Hnum.
  destruct (run_keeps_first_50 calls s [] Hc Hnum (Forall_nil _)) as [Ht Hl].
  { now rewrite Hs. }
  cbn [app] in Ht, Hl. fold all in Ht, Hl. fold l in Hl.
  pose proof (Array_sort_StronglySorted all Ht) as Hsorted.
  split.
  - unfold ascending. rewrite Hl.
    now apply StronglySorted_Sorted, StronglySorted_firstn.
  - exists (skipn 50 (Array_sort by_time all)). split.
    + rewrite Hl, firstn_skipn. symmetry. apply Array_sort_Permutation.
    + rewrite Hl. apply StronglySorted_app_le. now rewrite firstn_skipn.
Qed.

Ltac numeric_body :=
  let t := fresh "t" in
  let H := fresh "H" in
  intros t H; injection H as <-; discriminate.

Lemma countdown_calls_memory : Forall memory_call countdown_calls.
Proof.
  unfold countdown_calls. apply Forall_map, Forall_forall. intros i _.
  split; discriminate.
Qed.

Lemma countdown_calls_numeric : Forall numeric_call countdown_calls.
Proof.
  unfold countdown_calls. apply Forall_map, Forall_forall. intros i _.
  unfold numeric_call. cbn [snd submit]. numeric_body.
Qed.

Lemma memory_leaderboard_sorted_and_capped_witness :
  Forall memory_call countdown_calls /\
  Forall numeric_call countdown_calls /\
  List.length (submitted countdown_calls started) = 51%nat /\
  List.length (memoryLeaderboard (run countdown_calls started)) = 50%nat /\
  ascending (memoryLeaderboard (run countdown_calls started)).
Proof.
  split; [exact countdown_calls_memory|].
  split; [exact countdown_calls_numeric|].
  split; [vm_compute; reflexivity|].
  destruct (memory_leaderboard_sorted_and_capped NoStore countdown_calls started
              eq_refl countdown_calls_memory)
    as (_ & _ & H51 & Hsorted).
  split.
  - apply H51. vm_compute. reflexivity.
  - apply Hsorted. exact countdown_calls_numeric.
Defined.

(** C1 (as stated) fails: the handler stores the time ["abc"] as [NaN],
    and after the submissions 5, ["abc"], 3 the list is not ascending. *)
Lemma unparsed_time_breaks_the_order :
  Forall (fun call => memory_mode (fst call)) unparsed_calls /\
  map time (submitted unparsed_calls started) = [num 5; NaN; num 3] /\
  map time (memoryLeaderboard (run unparsed_calls started)) = [num 5; NaN; num 3] /\
  ~ ascending (memoryLeaderboard (run unparsed_calls started)).
Proof.
  split; [repeat constructor; discriminate|].
  split; [vm_compute; reflexivity|].
  split; [vm_compute; reflexivity|].
  intros H. vm_compute in H.
  inversion H as [|? ? _ Hd]; subst.
  inversion Hd as [|? ? Hle]; subst.
  discriminate Hle.
Qed.

(** ** Validation *)

(** C3 at a submission without a body ([req.body] is [undefined], as
    [express.json()] of Express 5 leaves it when the request carries no
    JSON): the destructuring raises inside the [try], and the answer is
    status 500 with the [TypeError]'s message, not status 400; the state
    is unchanged. *)
Theorem bodiless_submission_is_a_server_error (model : ScoreModel) (env : Env)
    (s : State model) :
  post_score env Undefined s =
    (Normal {| status := 500;
               json := Failed "提交分數失敗"
                         "Cannot destructure property 'name' of 'req.body' as it is undefined."
                         (toISOString env) |},
     s).
Proof. reflexivity. Qed.

(** A submission whose body is there (an object or an array) but lacks
    [name] or lacks [time] is answered with status 400 and the list of
    both required fields, whatever the storage mode, and leaves the
    in-memory list and the collection as they were. *)
Theorem missing_field_is_rejected (model : ScoreModel) (env : Env)
    (body : value) (s : State model) :
  Get body "name" = Normal Undefined \/ Get body "time" = Normal Undefined ->
  post_score env body s =
    (Normal {| status := 400;
               json := MissingParameters "缺少必要參數" ["name"; "time"] body |},
     s).
Proof.
  intros H.
  assert (exists n t a, Get body "name" = Normal n /\ Get body "time" = Normal t /\
                        Get body "accuracy" = Normal a /\
                        (n = Undefined \/ t = Undefined))
    as (n & t & a & Hn & Ht & Ha & Hu).
  { destruct H as [H|H].
    - destruct (Get_Normal_any _ _ _ "time" H) as [t Ht].
      destruct (Get_Normal_any _ _ _ "accuracy" H) as [a Ha]. eauto 10.
    - destruct (Get_Normal_any _ _ _ "name" H) as [n Hn].
      destruct (Get_Normal_any _ _ _ "accuracy" H) as [a Ha]. eauto 10. }
  unfold post_score, try_catch, post_score_try, bind, lift.
  rewrite Hn, Ht, Ha.
  destruct Hu as [-> | ->]; cbn [ToBoolean negb orb]; [reflexivity|].
  now rewrite orb_true_r.
Qed.

Lemma missing_field_is_rejected_witness :
  Get (Obj [(units "name", Str "Al")]) "time" = Normal Undefined /\
  post_score (disconnected 1) (Obj [(units "name", Str "Al")]) started =
    (Normal {| status := 400;
               json := MissingParameters "缺少必要參數" ["name"; "time"]
                         (Obj [(units "name", Str "Al")]) |},
     started).
Proof.
  split; [reflexivity|].
  apply (missing_field_is_rejected NoStore). right. reflexivity.
Defined.

Lemma Qeq_0_Qnum (q : Q) : (q == 0)%Q -> Qnum q = 0.
Proof. unfold Qeq. simpl. lia. Qed.

(** C10.  Presence is tested by truthiness: a body whose [time] is the
    number 0, or whose [name] is the empty string, is answered with
    status 400 like a body without the field, by the server and by its
    memory-only variant. *)
Theorem falsy_field_is_rejected (model : ScoreModel) (env : Env)
    (body : value) (s : State model) (leaderboard : list ScoreData) (q : Q) :
  (Get body "time" = Normal (Num (Finite q)) /\ (q == 0)%Q) \/
  Get body "name" = Normal (Str "") ->
  post_score env body s =
    (Normal {| status := 400;
               json := MissingParameters "缺少必要參數" ["name"; "time"] body |},
     s) /\
  MemoryOnly.post_score env body leaderboard =
    (Normal {| MemoryOnly.status := 400;
               MemoryOnly.json :=
                 MemoryOnly.MissingParameters "缺少必要參數" ["name"; "time"] body |},
     leaderboard).
Proof.
  intros H.
  assert (exists n t a, Get body "name" = Normal n /\ Get body "time" = Normal t /\
                        Get body "accuracy" = Normal a /\
                        (ToBoolean n = false \/ ToBoolean t = false))
    as (n & t & a & Hn & Ht & Ha & Hu).
  { destruct H as [[H Hq]|H].
    - destruct (Get_Normal_any _ _ _ "name" H) as [n Hn].
      destruct (Get_Normal_any _ _ _ "accuracy" H) as [a Ha].
      exists n, (Num (Finite q)), a. repeat split; auto.
      right. simpl. now rewrite (Qeq_0_Qnum q Hq).
    - destruct (Get_Normal_any _ _ _ "time" H) as [t Ht].
      destruct (Get_Normal_any _ _ _ "accuracy" H) as [a Ha].
      exists (Str ""), t, a. repeat split; auto. }
  unfold post_score, MemoryOnly.post_score, try_catch, post_score_try,
    MemoryOnly.post_score_try, bind, lift.
  rewrite Hn, Ht, Ha.
  destruct Hu as [-> | ->]; cbn [negb orb]; rewrite ?orb_true_r; split; reflexivity.
Qed.

Lemma falsy_field_is_rejected_witness :
  fst (post_score (disconnected 1)
         (Obj [(units "name", Str "Al"); (units "time", Num (num 0))]) started) =
    Normal {| status := 400;
              json := MissingParameters "缺少必要參數" ["name"; "time"]
                        (Obj [(units "name", Str "Al"); (units "time", Num (num 0))]) |}.
Proof.
  rewrite (proj1 (falsy_field_is_rejected NoStore (disconnected 1)
                    (Obj [(units "name", Str "Al"); (units "time", Num (num 0))])
                    started [] (inject_Z 0)
                    (or_introl (conj eq_refl (Qeq_refl _))))).
  reflexivity.
Defined.

(** ** Reading and clearing *)

Lemma firstn_min_length (A : Type) (n : nat) (l : list A) :
  firstn (Nat.min n (List.length l)) l = firstn n l.
Proof.
  destruct (Nat.le_ge_cases n (List.length l)) as [H|H].
  - now rewrite Nat.min_l.
  - rewrite Nat.min_r by assumption. now rewrite !firstn_all2.
Qed.



(** C7.  Whatever the in-memory list holds, clearing in memory mode and
    then reading in memory mode answers with the empty list, count 0 and
    the "no records yet" message. *)
Theorem clear_then_read_is_empty (model : ScoreModel) (env env' : Env)
    (s : State model) :
  memory_mode env -> memory_mode env' ->
  let cleared := snd (delete_leaderboard env s) in
  fst (delete_leaderboard env s) =
    Normal {| status := 200;
              json := Cleared true "內存排行榜已清空" "memory" (toISOString env) |} /\
  memoryLeaderboard cleared = [] /\
  get_leaderboard env' cleared =
    (Normal {| status := 200;
               json := MemoryLeaderboard [] 0 (toISOString env') "memory"
                         "暫無紀錄，成為第一個挑戰者！" |},
     cleared).
Proof.
  intros Hm Hm' cleared. subst cleared.
  unfold delete_leaderboard, try_catch, delete_leaderboard_try.
  rewrite (memory_mode_eqb env Hm). cbn.
  repeat split.
  now rewrite (get_leaderboard_memory env' _ Hm').
Qed.

Lemma clear_then_read_is_empty_witness :
  memory_mode (disconnected 60) /\
  memoryLeaderboard (snd (delete_leaderboard (disconnected 60) full_board)) = [] /\
  fst (get_leaderboard (disconnected 61)
         (snd (delete_leaderboard (disconnected 60) full_board))) =
    Normal {| status := 200;
              json := MemoryLeaderboard [] 0 "2024-01-01T00:00:00.000Z" "memory"
                        "暫無紀錄，成為第一個挑戰者！" |}.
Proof.
  assert (H60 : memory_mode (disconnected 60)) by discriminate.
  assert (H61 : memory_mode (disconnected 61)) by discriminate.
  destruct (clear_then_read_is_empty NoStore (disconnected 60) (disconnected 61)
              full_board H60 H61) as (_ & Hempty & Hread).
  split; [exact H60|]. split; [exact Hempty|].
  now rewrite Hread.
Defined.

(** ** Errors stay inside the handlers *)

Ltac split_matches H :=
  repeat match type of H with
         | context [match ?x with _ => _ end] => destruct x eqn:?
         | context [if ?b then _ else _] => destruct b eqn:?
         end.

Lemma handle_try_status (model : ScoreModel) (env : Env) (req : Request)
    (s s' : State model) (res : Response model) :
  handle_try env req s = (Normal res, s') ->
  In (status res) [200; 201; 400].
Proof.
  destruct req as [body| |]; intros H;
    unfold handle_try, post_score_try, get_leaderboard_try,
      delete_leaderboard_try, bind, lift, gets, modify, ret,
      on_collection, read_collection in H;
    split_matches H; try discriminate;
    injection H as <- _; simpl; auto.
Qed.

(** C9.  Each of the three handlers answers every request: it completes
    normally with status 200, 201, 400 or 500; whatever its guarded block
    raises is answered with status 500 and the error's message; and the
    error middleware answers with status 500 as well. *)
Theorem handlers_catch_every_error (model : ScoreModel) (env : Env)
    (req : Request) (s : State model) :
  (exists res, fst (handle env req s) = Normal res /\
               In (status res) [200; 201; 400; 500]) /\
  (forall e s', handle_try env req s = (Throw e, s') ->
     exists label,
       handle env req s =
         (Normal {| status := 500;
                    json := Failed label (message e) (toISOString env) |}, s')) /\
  (forall res s', handle_try env req s = (Normal res, s') ->
     handle env req s = (Normal res, s')) /\
  (forall NODE_ENV err stack,
     status (@error_middleware model NODE_ENV env err stack) = 500).
Proof.
  assert (Hshape : handle env req s =
            match handle_try env req s with
            | (Normal res, s') => (Normal res, s')
            | (Throw e, s') =>
                (Normal {| status := 500;
                           json := Failed
                                     (match req with
                                      | POST_score _ => "提交分數失敗"
                                      | GET_leaderboard => "獲取排行榜失敗"
                                      | DELETE_leaderboard => "清空排行榜失敗"
                                      end) (message e) (toISOString env) |}, s')
            end).
  { destruct req; reflexivity. }
  repeat split.
  - rewrite Hshape. destruct (handle_try env req s) as [[res|e] s'] eqn:E.
    + exists res. split; [reflexivity|].
      pose proof (handle_try_status model env req s s' res E) as Hin.
      simpl in Hin |- *. intuition.
    + eexists. split; [reflexivity|]. simpl. auto.
  - intros e s' E. rewrite Hshape, E. eauto.
  - intros res s' E. now rewrite Hshape, E.
Qed.

Lemma handlers_catch_every_error_witness :
  handle_try (disconnected 1)
    (POST_score (Obj [(units "name", Num (num 7)); (units "time", Num (num 12))])) started =
    (Throw (TypeError "name.substring is not a function"), started) /\
  exists label,
    handle (disconnected 1)
      (POST_score (Obj [(units "name", Num (num 7)); (units "time", Num (num 12))])) started =
      (Normal {| status := 500;
                 json := Failed label "name.substring is not a function"
                           "2024-01-01T00:00:00.000Z" |}, started).
Proof.
  split; [reflexivity|].
  destruct (handlers_catch_every_error NoStore (disconnected 1)
              (POST_score (Obj [(units "name", Num (num 7)); (units "time", Num (num 12))]))
              started) as (_ & Hthrow & _).
  destruct (Hthrow _ _ eq_refl) as [label Hlabel].
  exists label. exact Hlabel.
Defined.

(** ** What a valid submission stores *)


Lemma first_characters_length (n : nat) (s : jsstring) :
  List.length (first_characters n s) = Nat.min n (List.length s).
Proof. unfold first_characters. apply length_firstn. Qed.

Lemma String_substring_0 (s : jsstring) (n : nat) :
  String_substring s 0 (Z.of_nat n) = first_characters n s.
Proof.
  unfold String_substring, clamp, first_characters.
  replace (Z.min (Z.min (Z.max 0 0) (Z.of_nat (List.length s))) _) with 0 by lia.
  replace (Z.to_nat (_ - 0)) with (Nat.min n (List.length s)) by lia.
  simpl skipn. apply firstn_min_length.
Qed.

Section Stored.
Context {model : ScoreModel}.

Lemma post_score_database (env : Env) (body : value) (s : State model)
    (nm : jsstring) (t a : value) :
  readyState env = 1 ->
  Get body "name" = Normal (Str nm) -> nm <> "" ->
  Get body "time" = Normal t -> ToBoolean t = true ->
  ToString_completes t = true ->
  Get body "accuracy" = Normal a ->
  post_score env body s =
    match Score_save (Str (String_substring nm 0 20)) (numeric_prefix t)
                     (or_else a (Num (num 100))) (collection s) with
    | (Normal savedScore, c) =>
        (Normal {| status := 201;
                   json := SavedToDatabase true "分數已保存到數據庫" savedScore
                             "mongodb" (toISOString env) |},
         set_collection c s)
    | (Throw error, c) =>
        (Normal {| status := 500;
                   json := Failed "提交分數失敗" (message error) (toISOString env) |},
         set_collection c s)
    end.
Proof.
  intros Hm Hn Hnm Ht Htt Hts Ha.
  unfold post_score, try_catch, post_score_try, bind, lift.
  rewrite Hn, Ht, Ha, (ToBoolean_Str _ Hnm), Htt, Hm.
  cbn [negb orb call_substring Z.eqb Pos.eqb]. unfold parseFloat. rewrite Hts.
  unfold on_collection.
  now destruct (Score_save _ _ _ _) as [[d|e] c].
Qed.
End Stored.



(** The accuracy a valid submission stores in memory mode: 100 when the
    body has none, the number given when it is not zero. *)
Lemma stored_accuracy (model : ScoreModel) (env : Env) (body : value)
    (s : State model) (nm : jsstring) (t a : value) :
  memory_mode env ->
  Get body "name" = Normal (Str nm) -> nm <> "" ->
  Get body "time" = Normal t -> ToBoolean t = true ->
  ToString_completes t = true ->
  Get body "accuracy" = Normal a ->
  exists r,
    recorded (fst (post_score env body s)) = [r] /\
    (a = Undefined -> accuracy r = Num (num 100)) /\
    (forall q, a = Num (Finite q) -> ~ (q == 0)%Q -> accuracy r = a).
Proof.
  intros Hm Hn Hnm Ht Htt Hts Ha.
  rewrite (post_score_memory_accepts env body s nm t a Hm Hn Hnm Ht Htt Hts Ha).
  exists (new_record env nm t a). repeat split.
  - now intros ->.
  - intros q -> Hq. cbn [accuracy new_record]. unfold or_else. simpl.
    destruct (Z.eqb_spec (Qnum q) 0) as [E|E]; [|reflexivity].
    exfalso. apply Hq. unfold Qeq. simpl. lia.
Qed.

(** C4 at the accuracy 0: in memory mode the record stored carries the
    accuracy 100, and with the store connected 100 is what [save]
    receives. *)
Theorem zero_accuracy_is_stored_as_100 (model : ScoreModel) (s : State model) :
  recorded (fst (post_score (disconnected 1) zero_accuracy s)) =
    [ {| id := Date_now (disconnected 1); name := "Al"; time := Finite (25 # 2);
         accuracy := Num (num 100);
         date := toISOString (disconnected 1) |} ] /\
  post_score (connected 1) zero_accuracy s =
    match Score_save (Str "Al") (Finite (25 # 2)) (Num (num 100)) (collection s) with
    | (Normal savedScore, c) =>
        (Normal {| status := 201;
                   json := SavedToDatabase true "分數已保存到數據庫" savedScore
                             "mongodb" (toISOString (connected 1)) |},
         set_collection c s)
    | (Throw error, c) =>
        (Normal {| status := 500;
                   json := Failed "提交分數失敗" (message error)
                             (toISOString (connected 1)) |},
         set_collection c s)
    end.
Proof.
  split.
  - rewrite (post_score_memory_accepts (disconnected 1) zero_accuracy s
               "Al" (Num (Finite (25 # 2))) (Num (num 0)));
      try reflexivity; discriminate.
  - rewrite (post_score_database (connected 1) zero_accuracy s
               "Al" (Num (Finite (25 # 2))) (Num (num 0)));
      try reflexivity; discriminate.
Qed.

(** ** Records leave the list by a clear or by the trim *)

(** C8 (as stated) fails: a submission to a list of 50 records removes
    the record that sorts last. *)
Lemma submission_drops_a_record :
  let dropped := {| id := midnight + 50; name := "player"; time := num 10;
                    accuracy := Num (num 100);
                    date := "2024-01-01T00:00:00.000Z" |} in
  In dropped (memoryLeaderboard full_board) /\
  ~ In dropped
      (memoryLeaderboard
         (snd (post_score (disconnected 51) (entry "fast" (Num (num 1))) full_board))).
Proof.
  split.
  - vm_compute. repeat (first [left; reflexivity | right]).
  - intros H. apply (in_map id) in H. vm_compute in H.
    repeat (destruct H as [H|H]; [discriminate H|]). exact H.
Qed.

(** C8 (as amended).  In memory mode a read leaves the state as it was; a
    submission either is turned down and leaves the state as it was, or
    puts its record [r] into the list, which then holds the old records
    and [r], unchanged, except for the [length + 1 - 50] records the trim
    drops (none while the list held fewer than 50); when no time is
    [NaN], every record dropped has a time at least that of every record
    kept; a clear empties the list. *)
Theorem records_leave_by_clear_or_trim (model : ScoreModel) (env : Env)
    (s : State model) :
  memory_mode env ->
  snd (get_leaderboard env s) = s /\
  (forall body,
      let out := post_score env body s in
      (recorded (fst out) = [] /\ snd out = s) \/
      (exists r dropped,
          recorded (fst out) = [r] /\
          Permutation (memoryLeaderboard s ++ [r])
                      (memoryLeaderboard (snd out) ++ dropped) /\
          List.length dropped = (List.length (memoryLeaderboard s) + 1 - 50)%nat /\
          (Forall timed (memoryLeaderboard s) -> timed r ->
           forall kept d,
             In kept (memoryLeaderboard (snd out)) -> In d dropped ->
             time_le kept d))) /\
  memoryLeaderboard (snd (delete_leaderboard env s)) = [].
Proof.
  intros Hm. repeat split.
  - now rewrite (get_leaderboard_memory env s Hm).
  - intros body out. subst out.
    destruct (post_score_memory_cases env body s Hm)
      as [[Hsame Hnone]|(nm & t & a & Hn & Hnm & Ht & Htt & Hts & Ha)].
    + left. now split.
    + right.
      rewrite (post_score_memory_accepts env body s nm t a Hm Hn Hnm Ht Htt Hts Ha).
      cbn [fst snd recorded json memoryLeaderboard set_memoryLeaderboard].
      set (r := new_record env nm t a).
      set (sorted := Array_sort by_time (memoryLeaderboard s ++ [r])).
      exists r, (skipn 50 sorted). unfold resorted. fold sorted.
      split; [reflexivity|]. split; [|split].
      * rewrite firstn_skipn. symmetry. apply Array_sort_Permutation.
      * rewrite length_skipn. unfold sorted.
        rewrite Array_sort_length, length_app. reflexivity.
      * intros Hl Hr. apply StronglySorted_app_le. rewrite firstn_skipn.
        apply Array_sort_StronglySorted.
        apply Forall_app. split; [exact Hl|now constructor].
  - unfold delete_leaderboard, try_catch, delete_leaderboard_try.
    now rewrite (memory_mode_eqb env Hm).
Qed.

Lemma records_leave_by_clear_or_trim_witness :
  memory_mode (disconnected 51) /\
  exists r dropped,
    recorded (fst (post_score (disconnected 51) (entry "fast" (Num (num 1)))
                     full_board)) = [r] /\
    Permutation (memoryLeaderboard full_board ++ [r])
      (memoryLeaderboard
         (snd (post_score (disconnected 51) (entry "fast" (Num (num 1)))
                 full_board)) ++ dropped) /\
    List.length dropped = 1%nat.
Proof.
  assert (Hm : memory_mode (disconnected 51)) by discriminate.
  split; [exact Hm|].
  destruct (records_leave_by_clear_or_trim NoStore (disconnected 51) full_board Hm)
    as (_ & Hpost & _).
  destruct (Hpost (entry "fast" (Num (num 1))))
    as [[Hnone _]|(r & dropped & Hr & Hperm & Hlen & _)].
  - vm_compute in Hnone. discriminate Hnone.
  - exists r, dropped. repeat split; assumption.
Defined.

(** ** The rank a submission is answered with *)

Lemma findIndex_from_first (p : ScoreData -> bool) (pre post : list ScoreData)
    (r : ScoreData) (k : Z) :
  (forall x, In x pre -> p x = false) -> p r = true ->
  findIndex_from p (pre ++ r :: post) k = k + Z.of_nat (List.length pre).
Proof.
  revert k. induction pre as [|x pre IH]; intros k Hpre Hr.
  - simpl. rewrite Hr. lia.
  - cbn [app findIndex_from List.length]. rewrite (Hpre x) by now left.
    rewrite IH; [lia| |assumption].
    intros y Hy. apply Hpre. now right.
Qed.

Lemma findIndex_from_none (p : ScoreData -> bool) (l : list ScoreData) (k : Z) :
  (forall x, In x l -> p x = false) -> findIndex_from p l k = -1.
Proof.
  revert k. induction l as [|x l IH]; intros k H; [reflexivity|].
  simpl. rewrite (H x) by now left. apply IH. intros y Hy. apply H. now right.
Qed.

(** The rank of an accepted memory-mode submission: when its record sits
    behind [pre] in the list and no record of [pre] was created in the
    same millisecond, the rank is its 1-based position; when no record of
    the list carries its identifier (the trim dropped it), the rank is 0.
    The total is the length of the list. *)
Lemma rank_of_submission (model : ScoreModel) (env : Env) (body : value)
    (s : State model) (nm : jsstring) (t a : value) :
  memory_mode env ->
  Get body "name" = Normal (Str nm) -> nm <> "" ->
  Get body "time" = Normal t -> ToBoolean t = true ->
  ToString_completes t = true ->
  Get body "accuracy" = Normal a ->
  let r := new_record env nm t a in
  let l := memoryLeaderboard (snd (post_score env body s)) in
  exists msg rank,
    fst (post_score env body s) =
      Normal {| status := 201;
                json := SavedToMemory true msg r "memory" rank
                          (Z.of_nat (List.length l)) |} /\
    (forall pre post, l = pre ++ r :: post ->
        (forall x, In x pre -> id x <> id r) ->
        rank = Z.of_nat (List.length pre) + 1) /\
    ((forall x, In x l -> id x <> id r) -> rank = 0).
Proof.
  intros Hm Hn Hnm Ht Htt Hts Ha r l. subst l.
  rewrite (post_score_memory_accepts env body s nm t a Hm Hn Hnm Ht Htt Hts Ha).
  cbn [fst snd memoryLeaderboard set_memoryLeaderboard]. fold r.
  do 2 eexists. split; [reflexivity|]. split.
  - intros pre post -> Hpre. unfold Array_findIndex.
    rewrite findIndex_from_first; [lia| |apply Z.eqb_refl].
    intros x Hx. apply Z.eqb_neq. now apply Hpre.
  - intros Hnone. unfold Array_findIndex.
    rewrite findIndex_from_none; [reflexivity|].
    intros x Hx. apply Z.eqb_neq. now apply Hnone.
Qed.

(** C2 at a submission that the trim drops: the answer to the 51st
    submission, slower than the 50 stored ones, carries rank 0 and 50
    players, and its record is not in the list; the memory-only variant
    answers alike. *)
Theorem dropped_submission_is_ranked_0 :
  post_score (disconnected 51) (entry "slow" (Num (num 20))) full_board =
    (Normal {| status := 201;
               json := SavedToMemory true "分數已記錄（內存存儲，重啟後會丟失）"
                         {| id := midnight + 51; name := "slow"; time := num 20;
                            accuracy := Num (num 100);
                            date := "2024-01-01T00:00:00.000Z" |}
                         "memory" 0 50 |},
     full_board) /\
  existsb (fun x => id x =? midnight + 51) (memoryLeaderboard full_board) = false /\
  fst (MemoryOnly.post_score (disconnected 51) (entry "slow" (Num (num 20)))
         (memoryLeaderboard full_board)) =
    Normal {| MemoryOnly.status := 201;
              MemoryOnly.json :=
                MemoryOnly.Saved true "分數已記錄"
                  {| id := midnight + 51; name := "slow"; time := num 20;
                     accuracy := Num (num 100);
                     date := "2024-01-01T00:00:00.000Z" |}
                  0 50 |}.
Proof. repeat split; vm_compute; reflexivity. Qed.

(** Two submissions within one millisecond share their identifier: the
    second one, stored in second position, is answered with rank 1. *)
Example same_millisecond_rank :
  let first := snd (post_score (disconnected 7) (entry "Ann" (Num (num 5))) started) in
  let second := post_score (disconnected 7) (entry "Bob" (Num (num 9))) first in
  map name (memoryLeaderboard (snd second)) = [units "Ann"; units "Bob"] /\
  exists r, fst second =
    Normal {| status := 201;
              json := SavedToMemory true "分數已記錄（內存存儲，重啟後會丟失）"
                        r "memory" 1 2 |} /\ name r = "Bob".
Proof. split; [vm_compute; reflexivity|]. eexists. split; vm_compute; reflexivity. Qed.

(** ** The two variants *)

(** In memory mode the server and its memory-only variant change the
    list alike. *)
Lemma memory_only_agrees (model : ScoreModel) (env : Env) (body : value)
    (s : State model) :
  memory_mode env ->
  snd (MemoryOnly.post_score env body (memoryLeaderboard s)) =
  memoryLeaderboard (snd (post_score env body s)).
Proof.
  intros Hm.
  unfold MemoryOnly.post_score, MemoryOnly.post_score_try, post_score,
    post_score_try, try_catch, bind, lift.
  rewrite (memory_mode_eqb env Hm).
  destruct (Get body "name") as [n|]; [|reflexivity].
  destruct (Get body "time") as [t|]; [|reflexivity].
  destruct (Get body "accuracy") as [a|]; [|reflexivity].
  destruct (negb (ToBoolean n) || negb (ToBoolean t)); [reflexivity|].
  destruct (call_substring n 0 20) as [n20|]; [|reflexivity].
  destruct (parseFloat t) as [seconds|]; [|reflexivity].
  cbn [modify gets ret memoryLeaderboard set_memoryLeaderboard].
  unfold MemoryOnly.length_of, MemoryOnly.by_time, length_of, by_time.
  now destruct (50 <? _).
Qed.

(** The mongoose-only variant hands a valid name to [save] as it came,
    whatever its length. *)
Lemma mongoose_only_keeps_the_name (model : ScoreModel) (body : value)
    (c : Collection) (nm : jsstring) (t a : value) :
  Get body "name" = Normal (Str nm) -> nm <> "" ->
  Get body "time" = Normal t -> ToBoolean t = true ->
  ToString_completes t = true ->
  Get body "accuracy" = Normal a ->
  MongooseOnly.post_score body c =
    match Score_save (Str nm) (numeric_prefix t) (or_else a (Num (num 100))) c with
    | (Normal score, c') =>
        (Normal {| MongooseOnly.status := 201;
                   MongooseOnly.json := MongooseOnly.Saved true "分數已記錄" score |},
         c')
    | (Throw _, c') =>
        (Normal {| MongooseOnly.status := 500;
                   MongooseOnly.json := MongooseOnly.Failed "提交分數失敗" |},
         c')
    end.
Proof.
  intros Hn Hnm Ht Htt Hts Ha.
  unfold MongooseOnly.post_score, MongooseOnly.post_score_try, try_catch, bind, lift.
  rewrite Hn, Ht, Ha, (ToBoolean_Str _ Hnm), Htt.
  cbn [negb orb]. unfold parseFloat. rewrite Hts.
  now destruct (Score_save _ _ _ _) as [[d|e] c'].
Qed.

(** * Further properties of the handlers *)

(** ** The two stores are kept apart *)

Lemma connected_eqb (env : Env) : readyState env = 1 -> (readyState env =? 1) = true.
Proof. intros ->. reflexivity. Qed.

(** X1.  A request served while mongoose is connected leaves the
    in-memory list as it was, whatever the store answers; a later read in
    memory mode answers what it would have answered before. *)
Theorem database_mode_leaves_memory_list (model : ScoreModel) (env : Env)
    (req : Request) (s : State model) :
  readyState env = 1 ->
  memoryLeaderboard (snd (handle env req s)) = memoryLeaderboard s /\
  forall env', memory_mode env' ->
    fst (get_leaderboard env' (snd (handle env req s))) =
    fst (get_leaderboard env' s).
Proof.
  intros Hc.
  assert (Hkeep : memoryLeaderboard (snd (handle env req s)) = memoryLeaderboard s).
  { destruct req as [body| |];
      unfold handle, post_score, post_score_try, get_leaderboard,
        get_leaderboard_try, delete_leaderboard, delete_leaderboard_try,
        try_catch, bind, lift, on_collection, read_collection, ret;
      rewrite (connected_eqb env Hc).
    - destruct (Get body "name") as [n|]; [|reflexivity].
      destruct (Get body "time") as [t|]; [|reflexivity].
      destruct (Get body "accuracy") as [a|]; [|reflexivity].
      destruct (negb (ToBoolean n) || negb (ToBoolean t)); [reflexivity|].
      destruct (call_substring n 0 20) as [n20|]; [|reflexivity].
      destruct (parseFloat t) as [seconds|]; [|reflexivity].
      now destruct (Score_save _ _ _ _) as [[d|e] c].
    - destruct (Score_find_sort_time_limit 20 (collection s)); [|reflexivity].
      now destruct (Score_countDocuments (collection s)).
    - now destruct (Score_deleteMany (collection s)) as [[u|e] c]. }
  split; [exact Hkeep|].
  intros env' Hm.
  rewrite !(get_leaderboard_memory _ _ Hm). cbn [fst]. now rewrite Hkeep.
Qed.

Lemma database_mode_leaves_memory_list_witness :
  readyState (connected 60) = 1 /\
  memoryLeaderboard (snd (handle (connected 60) DELETE_leaderboard full_board)) =
    memoryLeaderboard full_board.
Proof.
  split; [reflexivity|].
  apply (database_mode_leaves_memory_list NoStore (connected 60)
           DELETE_leaderboard full_board eq_refl).
Defined.

(** X2.  A request served in memory mode never calls the model: the
    collection is left as it was, and the answer and the list after the
    call are those the server gives over a store whose every operation
    rejects. *)
Theorem memory_mode_never_calls_the_model (model : ScoreModel) (env : Env)
    (req : Request) (s : State model) :
  memory_mode env ->
  collection (snd (handle env req s)) = collection s /\
  exists r r0,
    fst (handle env req s) = Normal r /\
    document_free r = Some r0 /\
    handle (model := NoStore) env req (over_no_store (memoryLeaderboard s)) =
      (Normal r0, over_no_store (memoryLeaderboard (snd (handle env req s)))).
Proof.
  intros Hm.
  destruct req as [body| |];
    unfold handle, post_score, post_score_try, post_score_catch,
      get_leaderboard, get_leaderboard_try, delete_leaderboard,
      delete_leaderboard_try, try_catch, bind, lift, gets, modify, ret;
    rewrite (memory_mode_eqb env Hm);
    try (split; [reflexivity|do 2 eexists; repeat split; reflexivity]).
  destruct (Get body "name") as [n|];
    [|split; [reflexivity|do 2 eexists; repeat split; reflexivity]].
  destruct (Get body "time") as [t|];
    [|split; [reflexivity|do 2 eexists; repeat split; reflexivity]].
  destruct (Get body "accuracy") as [a|];
    [|split; [reflexivity|do 2 eexists; repeat split; reflexivity]].
  destruct (negb (ToBoolean n) || negb (ToBoolean t));
    [split; [reflexivity|do 2 eexists; repeat split; reflexivity]|].
  destruct (call_substring n 0 20) as [n20|];
    [|split; [reflexivity|do 2 eexists; repeat split; reflexivity]].
  destruct (parseFloat t) as [seconds|];
    [|split; [reflexivity|do 2 eexists; repeat split; reflexivity]].
  cbn [memoryLeaderboard set_memoryLeaderboard over_no_store].
  unfold over_no_store. cbn [memoryLeaderboard set_memoryLeaderboard].
  destruct (50 <? _);
    (split; [reflexivity|do 2 eexists; repeat split; reflexivity]).
Qed.

Lemma memory_mode_never_calls_the_model_witness :
  memory_mode (disconnected 1) /\
  collection (snd (handle (model := ListStore) (disconnected 1)
                     (submit "Al" (Num (num 12)))
                     (@Build_State ListStore [] [(Str "Bo", num 7, Num (num 90))]))) =
    [(Str "Bo", num 7, Num (num 90))] /\
  exists r0,
    handle (model := NoStore) (disconnected 1) (submit "Al" (Num (num 12)))
      (over_no_store []) =
      (Normal r0,
       over_no_store
         (memoryLeaderboard
            (snd (handle (model := ListStore) (disconnected 1)
                    (submit "Al" (Num (num 12)))
                    (@Build_State ListStore [] [(Str "Bo", num 7, Num (num 90))]))))) /\
    status r0 = 201.
Proof.
  split; [discriminate|].
  destruct (memory_mode_never_calls_the_model ListStore (disconnected 1)
              (submit "Al" (Num (num 12)))
              (@Build_State ListStore [] [(Str "Bo", num 7, Num (num 90))])
              ltac:(discriminate)) as (Hkeep & r & r0 & Hr & Hfree & Hsame).
  split; [exact Hkeep|].
  exists r0. split; [exact Hsame|].
  vm_compute in Hr. injection Hr as <-.
  vm_compute in Hfree. injection Hfree as <-. reflexivity.
Defined.

(** ** Ill-typed fields *)

(** X3.  A submission whose [name] and [time] pass the presence test is
    answered with status 500, in both storage modes and without a change
    of state, when [name] is not a string ([name.substring] is not a
    function) and when [time] cannot be converted to a string. *)
Theorem ill_typed_submission_is_a_server_error (model : ScoreModel) (env : Env)
    (body : value) (s : State model) (n t : value) :
  Get body "name" = Normal n -> ToBoolean n = true ->
  Get body "time" = Normal t -> ToBoolean t = true ->
  ((forall nm, n <> Str nm) ->
   post_score env body s =
     (Normal {| status := 500;
                json := Failed "提交分數失敗" "name.substring is not a function"
                          (toISOString env) |}, s)) /\
  ((exists nm, n = Str nm) -> ToString_completes t = false ->
   post_score env body s =
     (Normal {| status := 500;
                json := Failed "提交分數失敗"
                          "Cannot convert object to primitive value"
                          (toISOString env) |}, s)).
Proof.
  intros Hn Bn Ht Bt.
  destruct (Get_Normal_any body n "name" "accuracy" Hn) as [a Ha].
  split.
  - intros Hns.
    unfold post_score, try_catch, post_score_try, bind, lift.
    rewrite Hn, Ht, Ha, Bn, Bt. cbn [negb orb].
    destruct n as [| |b|x|nm|l|props];
      try (now destruct (readyState env =? 1)).
    now destruct (Hns nm).
  - intros [nm ->] Hts.
    unfold post_score, try_catch, post_score_try, bind, lift.
    rewrite Hn, Ht, Ha, Bn, Bt. cbn [negb orb call_substring].
    unfold parseFloat. rewrite Hts.
    now destruct (readyState env =? 1).
Qed.

Lemma ill_typed_submission_is_a_server_error_witness :
  post_score (disconnected 1)
    (Obj [(units "name", Arr [Str "Al"]); (units "time", Num (num 12))]) started =
    (Normal {| status := 500;
               json := Failed "提交分數失敗" "name.substring is not a function"
                         "2024-01-01T00:00:00.000Z" |}, started) /\
  post_score (connected 1)
    (Obj [(units "name", Str "Al"); (units "time", Obj [(units "toString", Num (num 1))])]) started =
    (Normal {| status := 500;
               json := Failed "提交分數失敗"
                         "Cannot convert object to primitive value"
                         "2024-01-01T00:00:00.000Z" |}, started).
Proof.
  split.
  - apply (proj1 (ill_typed_submission_is_a_server_error NoStore (disconnected 1)
                    (Obj [(units "name", Arr [Str "Al"]); (units "time", Num (num 12))]) started
                    (Arr [Str "Al"]) (Num (num 12)) eq_refl eq_refl eq_refl eq_refl)).
    intros nm H. discriminate H.
  - apply (proj2 (ill_typed_submission_is_a_server_error NoStore (connected 1)
                    (Obj [(units "name", Str "Al"); (units "time", Obj [(units "toString", Num (num 1))])])
                    started (Str "Al") (Obj [(units "toString", Num (num 1))])
                    eq_refl eq_refl eq_refl eq_refl)).
    + now exists "Al".
    + reflexivity.
Defined.

(** ** The answer to a stored submission *)

Lemma database_mode_records_nothing (model : ScoreModel) (env : Env)
    (body : value) (s : State model) :
  readyState env = 1 -> recorded (fst (post_score env body s)) = [].
Proof.
  intros Hc.
  unfold post_score, post_score_try, try_catch, bind, lift, on_collection, ret.
  rewrite (connected_eqb env Hc).
  destruct (Get body "name") as [n|]; [|reflexivity].
  destruct (Get body "time") as [t|]; [|reflexivity].
  destruct (Get body "accuracy") as [a|]; [|reflexivity].
  destruct (negb (ToBoolean n) || negb (ToBoolean t)); [reflexivity|].
  destruct (call_substring n 0 20) as [n20|]; [|reflexivity].
  destruct (parseFloat t) as [seconds|]; [|reflexivity].
  now destruct (Score_save _ _ _ _) as [[d|e] c].
Qed.

Lemma findIndex_from_bounds (p : ScoreData -> bool) (l : list ScoreData) (k : Z) :
  findIndex_from p l k = -1 \/
  k <= findIndex_from p l k < k + Z.of_nat (List.length l).
Proof.
  revert k. induction l as [|x l IH]; intros k; [now left|].
  cbn [findIndex_from List.length]. destruct (p x).
  - right. lia.
  - destruct (IH (k + 1)) as [H|H]; [now left|right; lia].
Qed.

(** X4.  Every answer that reports a record stored in memory has status
    201; its [totalPlayers] is the length of the list after the call,
    which is one more than before up to the cap of 50, so between 1 and
    50; and its [rank] lies between 0 and [totalPlayers]. *)
Theorem memory_answer_bounds (model : ScoreModel) (env : Env) (body : value)
    (s : State model) (code : Z) (ok : bool) (msg tag : string)
    (data : ScoreData) (rank total : Z) :
  fst (post_score env body s) =
    Normal {| status := code;
              json := SavedToMemory ok msg data tag rank total |} ->
  code = 201 /\
  total = Z.of_nat (List.length (memoryLeaderboard (snd (post_score env body s)))) /\
  total = Z.of_nat (Nat.min 50 (List.length (memoryLeaderboard s) + 1)) /\
  1 <= total <= 50 /\
  0 <= rank <= total.
Proof.
  intros Hanswer.
  destruct (Z.eq_dec (readyState env) 1) as [Hc|Hm].
  { pose proof (database_mode_records_nothing model env body s Hc) as Hnone.
    rewrite Hanswer in Hnone. discriminate Hnone. }
  destruct (post_score_memory_cases env body s Hm)
    as [[_ Hnone]|(nm & t & a & Hn & Hnm & Ht & Htt & Hts & Ha)].
  { rewrite Hanswer in Hnone. discriminate Hnone. }
  rewrite (post_score_memory_accepts env body s nm t a Hm Hn Hnm Ht Htt Hts Ha)
    in Hanswer |- *.
  cbn [fst snd memoryLeaderboard set_memoryLeaderboard] in *.
  injection Hanswer as <- _ _ _ _ <- <-.
  set (r := new_record env nm t a).
  assert (Hlen : List.length (resorted (memoryLeaderboard s) r) =
                 Nat.min 50 (List.length (memoryLeaderboard s) + 1)).
  { unfold resorted.
    now rewrite length_firstn, Array_sort_length, length_app. }
  unfold length_of, Array_findIndex. rewrite Hlen.
  destruct (findIndex_from_bounds (fun x => id x =? Date_now env)
              (resorted (memoryLeaderboard s) r) 0) as [H|H];
    rewrite ?Hlen in H; repeat split; lia.
Qed.

Lemma memory_answer_bounds_witness :
  exists data rank total,
    fst (post_score (disconnected 4) (entry "Dee" (Num (num 10))) small_board) =
      Normal {| status := 201;
                json := SavedToMemory true "分數已記錄（內存存儲，重啟後會丟失）"
                          data "memory" rank total |} /\
    total = 4 /\ 0 <= rank <= total.
Proof.
  eexists _, _, _. split; [vm_compute; reflexivity|].
  destruct (memory_answer_bounds NoStore (disconnected 4)
              (entry "Dee" (Num (num 10))) small_board
              201 true "分數已記錄（內存存儲，重啟後會丟失）" "memory"
              _ _ _ eq_refl) as (_ & _ & Htotal & _ & Hrank).
  split; [reflexivity|exact Hrank].
Defined.

(** ** Where a new record lands *)

Lemma Array_sort_snoc_fastest (l : list ScoreData) (r : ScoreData) :
  (forall x, In x l -> lessThan (time r) (time x) = true) ->
  Array_sort by_time (l ++ [r]) = r :: Array_sort by_time l.
Proof.
  induction l as [|x l IH]; intros H; [reflexivity|].
  cbn [app Array_sort]. rewrite IH by (intros y Hy; apply H; now right).
  rewrite insert_by_time_cons. now rewrite (H x) by now left.
Qed.

Lemma insert_app_last (x r : ScoreData) (l : list ScoreData) :
  lessThan (time r) (time x) = false ->
  insert by_time x (l ++ [r]) = insert by_time x l ++ [r].
Proof.
  intros H. induction l as [|y l IH].
  - cbn [app]. rewrite insert_by_time_cons. now rewrite H.
  - cbn [app]. rewrite !insert_by_time_cons.
    destruct (lessThan (time y) (time x)); [|reflexivity].
    cbn [app]. now rewrite IH.
Qed.

Lemma Array_sort_snoc_slowest (l : list ScoreData) (r : ScoreData) :
  (forall x, In x l -> lessThan (time r) (time x) = false) ->
  Array_sort by_time (l ++ [r]) = Array_sort by_time l ++ [r].
Proof.
  induction l as [|x l IH]; intros H; [reflexivity|].
  cbn [app Array_sort]. rewrite IH by (intros y Hy; apply H; now right).
  apply insert_app_last. apply H. now left.
Qed.

(** X5.  In memory mode a valid submission whose time is below the time
    of every stored record is put at the head of the list and answered
    with rank 1. *)
Theorem fastest_submission_is_ranked_first (model : ScoreModel) (env : Env)
    (body : value) (s : State model) (nm : jsstring) (t a : value) :
  memory_mode env ->
  Get body "name" = Normal (Str nm) -> nm <> "" ->
  Get body "time" = Normal t -> ToBoolean t = true ->
  ToString_completes t = true ->
  Get body "accuracy" = Normal a ->
  (forall x, In x (memoryLeaderboard s) ->
             lessThan (numeric_prefix t) (time x) = true) ->
  let r := new_record env nm t a in
  let out := post_score env body s in
  hd_error (memoryLeaderboard (snd out)) = Some r /\
  fst out =
    Normal {| status := 201;
              json := SavedToMemory true "分數已記錄（內存存儲，重啟後會丟失）"
                        r "memory" 1
                        (Z.of_nat (List.length (memoryLeaderboard (snd out)))) |}.
Proof.
  intros Hm Hn Hnm Ht Htt Hts Ha Hfast r out. subst out.
  rewrite (post_score_memory_accepts env body s nm t a Hm Hn Hnm Ht Htt Hts Ha).
  cbn [fst snd memoryLeaderboard set_memoryLeaderboard]. fold r.
  unfold resorted. rewrite (Array_sort_snoc_fastest _ r Hfast).
  cbn [firstn hd_error Array_findIndex findIndex_from].
  unfold Array_findIndex. cbn [findIndex_from]. rewrite Z.eqb_refl.
  split; reflexivity.
Qed.

Lemma fastest_submission_is_ranked_first_witness :
  hd_error (memoryLeaderboard
              (snd (post_score (disconnected 4) (entry "Dee" (Num (num 8)))
                      small_board))) =
    Some (new_record (disconnected 4) "Dee" (Num (num 8)) Undefined) /\
  fst (post_score (disconnected 4) (entry "Dee" (Num (num 8))) small_board) =
    Normal {| status := 201;
              json := SavedToMemory true "分數已記錄（內存存儲，重啟後會丟失）"
                        (new_record (disconnected 4) "Dee" (Num (num 8)) Undefined)
                        "memory" 1 4 |}.
Proof.
  destruct (fastest_submission_is_ranked_first NoStore (disconnected 4)
              (entry "Dee" (Num (num 8))) small_board "Dee" (Num (num 8)) Undefined
              ltac:(discriminate) eq_refl ltac:(discriminate)
              eq_refl eq_refl eq_refl eq_refl) as [Hhead Hanswer].
  - intros x Hx. vm_compute in Hx.
    destruct Hx as [<-|[<-|[<-|[]]]]; reflexivity.
  - split; [exact Hhead|]. rewrite Hanswer. vm_compute. reflexivity.
Defined.

(** X6.  In memory mode a valid submission that is faster than no stored
    record, sent to a list of fewer than 50 records none of which was
    created in the same millisecond, is put at the end of the sorted list
    (behind the records of equal time) and answered with the last rank,
    [length + 1]. *)
Theorem slowest_submission_is_ranked_last (model : ScoreModel) (env : Env)
    (body : value) (s : State model) (nm : jsstring) (t a : value) :
  memory_mode env ->
  Get body "name" = Normal (Str nm) -> nm <> "" ->
  Get body "time" = Normal t -> ToBoolean t = true ->
  ToString_completes t = true ->
  Get body "accuracy" = Normal a ->
  (forall x, In x (memoryLeaderboard s) ->
             lessThan (numeric_prefix t) (time x) = false) ->
  (List.length (memoryLeaderboard s) < 50)%nat ->
  (forall x, In x (memoryLeaderboard s) -> id x <> Date_now env) ->
  let r := new_record env nm t a in
  let out := post_score env body s in
  memoryLeaderboard (snd out) = Array_sort by_time (memoryLeaderboard s) ++ [r] /\
  (ascending (memoryLeaderboard s) ->
   memoryLeaderboard (snd out) = memoryLeaderboard s ++ [r]) /\
  fst out =
    Normal {| status := 201;
              json := SavedToMemory true "分數已記錄（內存存儲，重啟後會丟失）"
                        r "memory"
                        (Z.of_nat (List.length (memoryLeaderboard s)) + 1)
                        (Z.of_nat (List.length (memoryLeaderboard s)) + 1) |}.
Proof.
  intros Hm Hn Hnm Ht Htt Hts Ha Hslow Hroom Hfresh r out. subst out.
  rewrite (post_score_memory_accepts env body s nm t a Hm Hn Hnm Ht Htt Hts Ha).
  cbn [fst snd memoryLeaderboard set_memoryLeaderboard]. fold r.
  assert (Hl : resorted (memoryLeaderboard s) r =
               Array_sort by_time (memoryLeaderboard s) ++ [r]).
  { unfold resorted. rewrite (Array_sort_snoc_slowest _ r Hslow).
    apply firstn_all2.
    rewrite length_app, Array_sort_length. cbn [List.length]. lia. }
  rewrite Hl. split; [reflexivity|]. split.
  - intros Hasc. f_equal. apply Array_sort_sorted_id.
    apply Sorted_StronglySorted; [|exact Hasc].
    intros x y z. apply time_le_trans.
  - unfold Array_findIndex.
    rewrite findIndex_from_first.
    + unfold length_of.
      rewrite length_app, !Array_sort_length. cbn [List.length].
      do 3 f_equal; lia.
    + intros x Hx. apply Z.eqb_neq. apply Hfresh.
      now apply (Permutation_in _ (Array_sort_Permutation _ _ _)) in Hx.
    + apply Z.eqb_refl.
Qed.

Lemma slowest_submission_is_ranked_last_witness :
  memoryLeaderboard
    (snd (post_score (disconnected 4) (entry "Dee" (Num (num 15))) small_board)) =
    memoryLeaderboard small_board
      ++ [new_record (disconnected 4) "Dee" (Num (num 15)) Undefined] /\
  fst (post_score (disconnected 4) (entry "Dee" (Num (num 15))) small_board) =
    Normal {| status := 201;
              json := SavedToMemory true "分數已記錄（內存存儲，重啟後會丟失）"
                        (new_record (disconnected 4) "Dee" (Num (num 15)) Undefined)
                        "memory" 4 4 |}.
Proof.
  destruct (slowest_submission_is_ranked_last NoStore (disconnected 4)
              (entry "Dee" (Num (num 15))) small_board "Dee" (Num (num 15)) Undefined
              ltac:(discriminate) eq_refl ltac:(discriminate)
              eq_refl eq_refl eq_refl eq_refl) as (_ & Hend & Hanswer).
  - intros x Hx. vm_compute in Hx.
    destruct Hx as [<-|[<-|[<-|[]]]]; reflexivity.
  - vm_compute. lia.
  - intros x Hx. vm_compute in Hx.
    destruct Hx as [<-|[<-|[<-|[]]]]; vm_compute; discriminate.
  - split; [|exact Hanswer].
    apply Hend. vm_compute.
    repeat constructor.
Defined.

(** ** Invariants of the in-memory list under every call *)

(** The list a call leaves: the old one, the empty one, or the old one
    with the record of a memory-mode submission sorted in and trimmed. *)
Lemma handle_memoryLeaderboard_cases (model : ScoreModel) (env : Env)
    (req : Request) (s : State model) :
  memoryLeaderboard (snd (handle env req s)) = memoryLeaderboard s \/
  memoryLeaderboard (snd (handle env req s)) = [] \/
  exists body nm t a,
    req = POST_score body /\
    Get body "name" = Normal (Str nm) /\ nm <> "" /\
    Get body "time" = Normal t /\ ToString_completes t = true /\
    memoryLeaderboard (snd (handle env req s)) =
      resorted (memoryLeaderboard s) (new_record env nm t a).
Proof.
  destruct (Z.eq_dec (readyState env) 1) as [Hc|Hm].
  { left. apply (database_mode_leaves_memory_list model env req s Hc). }
  destruct req as [body| |].
  - cbn [handle].
    destruct (post_score_memory_cases env body s Hm)
      as [[Hsame _]|(nm & t & a & Hn & Hnm & Ht & Htt & Hts & Ha)].
    + left. now rewrite Hsame.
    + right. right. exists body, nm, t, a.
      rewrite (post_score_memory_accepts env body s nm t a Hm Hn Hnm Ht Htt Hts Ha).
      repeat split; auto.
  - left. cbn [handle]. now rewrite (get_leaderboard_memory env s Hm).
  - right. left. cbn [handle].
    unfold delete_leaderboard, try_catch, delete_leaderboard_try.
    now rewrite (memory_mode_eqb env Hm).
Qed.

Lemma Forall_resorted (P : ScoreData -> Prop) (l : list ScoreData) (r : ScoreData) :
  Forall P l -> P r -> Forall P (resorted l r).
Proof.
  intros Hl Hr. unfold resorted. apply Forall_firstn_of.
  apply Forall_forall. intros x Hx.
  apply (Permutation_in _ (Array_sort_Permutation _ _ _)) in Hx.
  apply in_app_or in Hx. destruct Hx as [Hx|[<-|[]]]; [|exact Hr].
  now apply (proj1 (Forall_forall _ _) Hl).
Qed.

Lemma leaderboard_invariant_resorted (l : list ScoreData) (r : ScoreData) :
  Forall timed l -> timed r -> leaderboard_invariant (resorted l r).
Proof.
  intros Hl Hr. repeat split.
  - now apply Forall_resorted.
  - unfold ascending, resorted.
    apply StronglySorted_Sorted, StronglySorted_firstn, Array_sort_StronglySorted.
    apply Forall_app. split; [assumption|now constructor].
  - unfold resorted. rewrite length_firstn. lia.
Qed.

Lemma leaderboard_invariant_nil : leaderboard_invariant [].
Proof. split; [constructor|]. split; [constructor|]. simpl. lia. Qed.

(** X7.  Whatever calls the server takes, in whatever storage mode and
    clears included, as long as no submitted time reads as [NaN] the
    in-memory list stays free of [NaN] times, ascending by time and at
    most 50 records long. *)
Theorem every_call_keeps_the_leaderboard_invariant (model : ScoreModel)
    (calls : list (Env * Request)) (s : State model) :
  Forall numeric_call calls ->
  leaderboard_invariant (memoryLeaderboard s) ->
  leaderboard_invariant (memoryLeaderboard (run calls s)).
Proof.
  intros Hnum. revert s.
  induction Hnum as [|[env req] calls Hcall Hnum IH]; intros s Hs; [exact Hs|].
  cbn [run]. apply IH.
  destruct (handle_memoryLeaderboard_cases model env req s)
    as [->|[->|(body & nm & t & a & -> & Hn & Hnm & Ht & Hts & ->)]].
  - exact Hs.
  - exact leaderboard_invariant_nil.
  - apply leaderboard_invariant_resorted; [apply Hs|].
    unfold numeric_call, numeric_time in Hcall. cbn [snd] in Hcall.
    specialize (Hcall t Ht). unfold parseFloat in Hcall. rewrite Hts in Hcall.
    unfold timed. cbn [time new_record].
    destruct (numeric_prefix t); simpl; congruence.
Qed.

Lemma every_call_keeps_the_leaderboard_invariant_witness :
  leaderboard_invariant
    (memoryLeaderboard
       (run (countdown_calls
               ++ [(disconnected 60, DELETE_leaderboard);
                   (disconnected 61, submit "Ann" (Str "7.5"));
                   (connected 62, submit "Bob" (Num (num 3)))])
            started)).
Proof.
  apply (every_call_keeps_the_leaderboard_invariant NoStore).
  - apply Forall_app. split; [exact countdown_calls_numeric|].
    repeat constructor; unfold numeric_call; cbn [snd submit]; numeric_body.
  - exact leaderboard_invariant_nil.
Defined.

Lemma nonempty_length (s : jsstring) : s <> "" -> (1 <= List.length s)%nat.
Proof. destruct s; [intros H; now contradiction H|simpl; lia]. Qed.

Lemma new_record_well_formed (env : Env) (nm : jsstring) (t a : value) :
  nm <> "" -> well_formed (new_record env nm t a).
Proof.
  intros Hnm. split.
  - cbn [name new_record]. change 20 with (Z.of_nat 20).
    rewrite String_substring_0, first_characters_length.
    pose proof (nonempty_length nm Hnm). lia.
  - cbn [accuracy new_record]. unfold or_else.
    destruct (ToBoolean a) eqn:E; [exact E|reflexivity].
Qed.

(** X8.  Whatever calls the server takes, every record of the in-memory
    list keeps a name of 1 to 20 UTF-16 code units and an accuracy that
    is not falsy (so never 0, [null] or the empty string). *)
Theorem stored_records_stay_well_formed (model : ScoreModel)
    (calls : list (Env * Request)) (s : State model) :
  Forall well_formed (memoryLeaderboard s) ->
  Forall well_formed (memoryLeaderboard (run calls s)).
Proof.
  revert s. induction calls as [|[env req] calls IH]; intros s Hs; [exact Hs|].
  cbn [run]. apply IH.
  destruct (handle_memoryLeaderboard_cases model env req s)
    as [->|[->|(body & nm & t & a & -> & Hn & Hnm & Ht & Hts & ->)]].
  - exact Hs.
  - constructor.
  - apply Forall_resorted; [exact Hs|]. now apply new_record_well_formed.
Qed.

Lemma stored_records_stay_well_formed_witness :
  Forall well_formed (memoryLeaderboard started) /\
  Forall well_formed
    (memoryLeaderboard
       (run [(disconnected 1,
              POST_score (Obj [(units "name", Str "abcdefghijklmnopqrstuvwxyz");
                               (units "time", Str "12.5");
                               (units "accuracy", Num (num 0))]));
             (disconnected 2, submit "Bob" (Bool true))]
            started)).
Proof.
  split; [constructor|].
  apply (stored_records_stay_well_formed NoStore). constructor.
Defined.

(** X9.  Starting from the empty list, sorting and trimming after every
    submission gives what one sort and one trim of all the submitted
    records would give: when no submitted time reads as [NaN], the list
    is the first 50 of the submitted records sorted by time, records of
    equal time in the order of their submission. *)
Theorem incremental_sort_is_batch_sort (model : ScoreModel)
    (calls : list (Env * Request)) (s : State model) :
  memoryLeaderboard s = [] ->
  Forall memory_call calls ->
  Forall numeric_call calls ->
  memoryLeaderboard (run calls s) =
    firstn 50 (Array_sort by_time (submitted calls s)).
Proof.
  intros Hs Hc Hnum.
  destruct (run_keeps_first_50 calls s [] Hc Hnum (Forall_nil _)) as [_ Hl].
  { now rewrite Hs. }
  exact Hl.
Qed.

Lemma incremental_sort_is_batch_sort_witness :
  memoryLeaderboard (run countdown_calls started) =
    firstn 50 (Array_sort by_time (submitted countdown_calls started)).
Proof.
  apply (incremental_sort_is_batch_sort NoStore countdown_calls started eq_refl
           countdown_calls_memory countdown_calls_numeric).
Defined.

(** ** The server files side by side *)

(** X10.  In memory mode the server answers and changes its list as the
    memory-only variant does on the same list: the same status, record,
    rank, count and records, up to the [storage] tag and the texts that
    name the storage. *)
Theorem memory_mode_refines_memory_only (model : ScoreModel) (env : Env)
    (req : Request) (s : State model) :
  memory_mode env ->
  exists r r',
    fst (handle env req s) = Normal r /\
    as_memory_only r = Some r' /\
    MemoryOnly.handle env req (memoryLeaderboard s) =
      (Normal r', memoryLeaderboard (snd (handle env req s))).
Proof.
  intros Hm. destruct req as [body| |].
  - unfold handle, MemoryOnly.handle, MemoryOnly.post_score,
      MemoryOnly.post_score_try, post_score, post_score_try, try_catch,
      post_score_catch, bind, lift.
    rewrite (memory_mode_eqb env Hm).
    destruct (Get body "name") as [n|];
      [|do 2 eexists; repeat split; reflexivity].
    destruct (Get body "time") as [t|];
      [|do 2 eexists; repeat split; reflexivity].
    destruct (Get body "accuracy") as [a|];
      [|do 2 eexists; repeat split; reflexivity].
    destruct (negb (ToBoolean n) || negb (ToBoolean t));
      [do 2 eexists; repeat split; reflexivity|].
    destruct (call_substring n 0 20) as [n20|];
      [|do 2 eexists; repeat split; reflexivity].
    destruct (parseFloat t) as [seconds|];
      [|do 2 eexists; repeat split; reflexivity].
    cbn [modify gets ret memoryLeaderboard set_memoryLeaderboard].
    unfold MemoryOnly.length_of, MemoryOnly.by_time, length_of, by_time.
    destruct (50 <? _);
      cbn [modify gets ret memoryLeaderboard set_memoryLeaderboard fst snd];
      do 2 eexists; repeat split; reflexivity.
  - cbn [handle MemoryOnly.handle].
    rewrite (get_leaderboard_memory env s Hm).
    do 2 eexists. repeat split; reflexivity.
  - unfold handle, MemoryOnly.handle, delete_leaderboard, try_catch,
      delete_leaderboard_try.
    rewrite (memory_mode_eqb env Hm).
    do 2 eexists. repeat split; reflexivity.
Qed.

Lemma memory_mode_refines_memory_only_witness :
  exists r',
    MemoryOnly.handle (disconnected 4) (submit "Dee" (Num (num 10)))
      (memoryLeaderboard small_board) =
      (Normal r',
       memoryLeaderboard
         (snd (handle (disconnected 4) (submit "Dee" (Num (num 10))) small_board))) /\
    MemoryOnly.status r' = 201.
Proof.
  destruct (memory_mode_refines_memory_only NoStore (disconnected 4)
              (submit "Dee" (Num (num 10))) small_board ltac:(discriminate))
    as (r & r' & Hr & Hr' & Hsame).
  exists r'. split; [exact Hsame|].
  vm_compute in Hr. injection Hr as <-.
  vm_compute in Hr'. injection Hr' as <-. reflexivity.
Defined.

(** ** The mongoose-only variant *)

(** X11.  The mongoose-only variant hands every name that passes the
    presence test to [save] as it came: a long string uncut, a value that
    is not a string without the [TypeError] of the server. *)
Theorem mongoose_only_hands_over_any_name (model : ScoreModel) (body : value)
    (c : Collection) (n t a : value) :
  Get body "name" = Normal n -> ToBoolean n = true ->
  Get body "time" = Normal t -> ToBoolean t = true ->
  ToString_completes t = true ->
  Get body "accuracy" = Normal a ->
  MongooseOnly.post_score body c =
    match Score_save n (numeric_prefix t) (or_else a (Num (num 100))) c with
    | (Normal score, c') =>
        (Normal {| MongooseOnly.status := 201;
                   MongooseOnly.json := MongooseOnly.Saved true "分數已記錄" score |},
         c')
    | (Throw _, c') =>
        (Normal {| MongooseOnly.status := 500;
                   MongooseOnly.json := MongooseOnly.Failed "提交分數失敗" |},
         c')
    end.
Proof.
  intros Hn Bn Ht Bt Hts Ha.
  unfold MongooseOnly.post_score, MongooseOnly.post_score_try, try_catch, bind, lift.
  rewrite Hn, Ht, Ha, Bn, Bt.
  cbn [negb orb]. unfold parseFloat. rewrite Hts.
  now destruct (Score_save _ _ _ _) as [[d|e] c'].
Qed.

Lemma mongoose_only_hands_over_any_name_witness :
  MongooseOnly.post_score (model := ListStore)
    (entry "abcdefghijklmnopqrstuvwxyz" (Num (num 12))) [] =
    (Normal {| MongooseOnly.status := 201;
               MongooseOnly.json :=
                 MongooseOnly.Saved (model := ListStore) true "分數已記錄"
                   (Str "abcdefghijklmnopqrstuvwxyz", num 12, Num (num 100)) |},
     [(Str "abcdefghijklmnopqrstuvwxyz", num 12, Num (num 100))]).
Proof.
  rewrite (mongoose_only_hands_over_any_name ListStore
             (entry "abcdefghijklmnopqrstuvwxyz" (Num (num 12))) []
             (Str "abcdefghijklmnopqrstuvwxyz") (Num (num 12)) Undefined
             eq_refl eq_refl eq_refl eq_refl eq_refl eq_refl).
  reflexivity.
Defined.

(** X12.  The mongoose-only variant answers a body without [name] or
    without [time] with status 400 and the error text alone, and does not
    call the model. *)
Theorem mongoose_only_rejects_missing_field (model : ScoreModel) (body : value)
    (c : Collection) :
  Get body "name" = Normal Undefined \/ Get body "time" = Normal Undefined ->
  MongooseOnly.post_score body c =
    (Normal {| MongooseOnly.status := 400;
               MongooseOnly.json := MongooseOnly.MissingParameters "缺少必要參數" |},
     c).
Proof.
  intros H.
  assert (exists n t a, Get body "name" = Normal n /\ Get body "time" = Normal t /\
                        Get body "accuracy" = Normal a /\
                        (n = Undefined \/ t = Undefined))
    as (n & t & a & Hn & Ht & Ha & Hu).
  { destruct H as [H|H].
    - destruct (Get_Normal_any _ _ _ "time" H) as [t Ht].
      destruct (Get_Normal_any _ _ _ "accuracy" H) as [a Ha]. eauto 10.
    - destruct (Get_Normal_any _ _ _ "name" H) as [n Hn].
      destruct (Get_Normal_any _ _ _ "accuracy" H) as [a Ha]. eauto 10. }
  unfold MongooseOnly.post_score, MongooseOnly.post_score_try, try_catch, bind, lift.
  rewrite Hn, Ht, Ha.
  destruct Hu as [-> | ->]; cbn [ToBoolean negb orb]; [reflexivity|].
  now rewrite orb_true_r.
Qed.

Lemma mongoose_only_rejects_missing_field_witness :
  MongooseOnly.post_score (model := ListStore) (Obj [(units "time", Num (num 12))]) [] =
    (Normal {| MongooseOnly.status := 400;
               MongooseOnly.json :=
                 MongooseOnly.MissingParameters (model := ListStore) "缺少必要參數" |},
     []).
Proof.
  apply (mongoose_only_rejects_missing_field ListStore). left. reflexivity.
Defined.

(** X13.  The read of the mongoose-only variant: without a connection it
    answers the empty list with count 0 and does not call the model,
    whatever the collection holds; with one, unless the query fails, its
    count is the number of documents it answers, not the size of the
    collection. *)
Theorem mongoose_only_read (model : ScoreModel) (env : Env) (c : Collection) :
  (readyState env <> 1 ->
   MongooseOnly.get_leaderboard env c =
     (Normal {| MongooseOnly.status := 200;
                MongooseOnly.json :=
                  MongooseOnly.MemoryNotice [] 0 "使用內存模式，重啟後數據會丟失" |},
      c)) /\
  (readyState env = 1 ->
   snd (MongooseOnly.get_leaderboard env c) = c /\
   forall leaderboard count,
     fst (MongooseOnly.get_leaderboard env c) =
       Normal {| MongooseOnly.status := 200;
                 MongooseOnly.json := MongooseOnly.Leaderboard leaderboard count |} ->
     Score_find_sort_time_limit 50 c = Normal leaderboard /\
     count = Z.of_nat (List.length leaderboard)).
Proof.
  unfold MongooseOnly.get_leaderboard, MongooseOnly.get_leaderboard_try,
    try_catch, bind, ret.
  split.
  - intros Hm. now rewrite (memory_mode_eqb env Hm).
  - intros Hc. rewrite (connected_eqb env Hc). cbn [negb].
    destruct (Score_find_sort_time_limit 50 c) as [l|e]; cbn [fst snd].
    + split; [reflexivity|]. intros leaderboard count H.
      injection H as <- <-. now split.
    + split; [reflexivity|]. intros leaderboard count H. discriminate H.
Qed.

Lemma mongoose_only_read_witness :
  MongooseOnly.get_leaderboard (model := ListStore) (disconnected 1)
    [(Str "Bo", num 7, Num (num 90))] =
    (Normal {| MongooseOnly.status := 200;
               MongooseOnly.json :=
                 MongooseOnly.MemoryNotice (model := ListStore) [] 0
                   "使用內存模式，重啟後數據會丟失" |},
     [(Str "Bo", num 7, Num (num 90))]) /\
  fst (MongooseOnly.get_leaderboard (model := ListStore) (connected 1)
         [(Str "Bo", num 7, Num (num 90)); (Str "Al", num 5, Num (num 100))]) =
    Normal {| MongooseOnly.status := 200;
              MongooseOnly.json :=
                MongooseOnly.Leaderboard (model := ListStore)
                  [(Str "Al", num 5, Num (num 100)); (Str "Bo", num 7, Num (num 90))]
                  2 |}.
Proof.
  split.
  - apply (proj1 (mongoose_only_read ListStore (disconnected 1)
                    [(Str "Bo", num 7, Num (num 90))])).
    discriminate.
  - vm_compute. reflexivity.
Defined.

(** ** The snippet in front of the server module *)

(** X14.  The route of the snippet has no presence test: a body without
    [name] is answered with status 500, not 400, and the model is not
    called; a body whose name is a string is saved even without [time],
    with the name cut to its first 20 UTF-16 code units and the time
    [NaN]. *)
Theorem snippet_has_no_presence_test (model : ScoreModel) (body : value)
    (c : Collection) :
  (Get body "name" = Normal Undefined ->
   Snippet.post_score body c =
     (Normal {| Snippet.status := 500;
                Snippet.json := Snippet.Failed "保存分數失敗" |}, c)) /\
  (forall nm a,
     Get body "name" = Normal (Str nm) ->
     Get body "time" = Normal Undefined ->
     Get body "accuracy" = Normal a ->
     Snippet.post_score body c =
       match Score_save (Str (first_characters 20 nm)) NaN
                        (or_else a (Num (num 100))) c with
       | (Normal savedScore, c') =>
           (Normal {| Snippet.status := 201;
                      Snippet.json := Snippet.Saved true "分數已保存" savedScore |},
            c')
       | (Throw _, c') =>
           (Normal {| Snippet.status := 500;
                      Snippet.json := Snippet.Failed "保存分數失敗" |}, c')
       end).
Proof.
  unfold Snippet.post_score, Snippet.post_score_try, try_catch, bind, lift.
  split.
  - intros Hn.
    destruct (Get_Normal_any _ _ _ "time" Hn) as [t Ht].
    destruct (Get_Normal_any _ _ _ "accuracy" Hn) as [a Ha].
    now rewrite Hn, Ht, Ha.
  - intros nm a Hn Ht Ha. rewrite Hn, Ht, Ha.
    cbn [Snippet.name_substring call_substring parseFloat ToString_completes
           numeric_prefix].
    change 20 with (Z.of_nat 20). rewrite String_substring_0.
    now destruct (Score_save _ _ _ _) as [[d|e] c'].
Qed.

Lemma snippet_has_no_presence_test_witness :
  Snippet.post_score (model := ListStore) (Obj [(units "time", Num (num 12))]) [] =
    (Normal {| Snippet.status := 500;
               Snippet.json := Snippet.Failed (model := ListStore) "保存分數失敗" |},
     []) /\
  snd (Snippet.post_score (model := ListStore)
         (Obj [(units "name", Str "abcdefghijklmnopqrstuvwxyz")]) []) =
    [(Str "abcdefghijklmnopqrst", NaN, Num (num 100))].
Proof.
  split.
  - apply (proj1 (snippet_has_no_presence_test ListStore
                    (Obj [(units "time", Num (num 12))]) [])).
    reflexivity.
  - rewrite (proj2 (snippet_has_no_presence_test ListStore
                      (Obj [(units "name", Str "abcdefghijklmnopqrstuvwxyz")]) [])
               "abcdefghijklmnopqrstuvwxyz" Undefined eq_refl eq_refl eq_refl).
    reflexivity.
Defined.

(** ** From the rank back to the record *)




